(** * MindWell wellness companion: model of the mood pipeline and its session state

    The development embeds, function by function, the decision logic of
    [src/constants.tsx] (the Gemini service adapter, the mood tracker
    aggregation and the application container) together with the types of
    [src/types.ts], and states the properties of the specification over it.

    Conventions.
    - A JavaScript string is a Rocq [string] holding its UTF-8 bytes.
    - A JavaScript value that crosses the JSON boundary is a [JS.value];
      [undefined] is [None] of [option JS.value].
    - A [Date] is its epoch value in milliseconds, an integer.
    - Every remote capability (the model call, the chat session, the clock)
      is an explicit input, so that the functions are total and executable. *)

From Stdlib Require Import ZArith List String Ascii Bool Lia Arith.
From Stdlib Require Import Floats.SpecFloat DecimalString.
From Stdlib Require Import Sorting.Sorted Sorting.Permutation.
Import ListNotations.

Local Open Scope string_scope.
Local Open Scope list_scope.

Set Warnings "-register-all".

(* ================================================================== *)
(** * JavaScript values *)
(* ================================================================== *)

Module JS.

(** What [JSON.parse] can return.  A Number is an IEEE 754 double, given
    here by the Standard Library's [spec_float]. *)
Inductive value : Type :=
| JNull
| JBool (b : bool)
| JNum (x : spec_float)
| JStr (s : string)
| JArr (items : list value)
| JObj (fields : list (string * value)).

(** ToBoolean.  [undefined] is handled by [truthy_opt]. *)
Definition truthy (v : value) : bool :=
  match v with
  | JNull => false
  | JBool b => b
  | JNum (S754_zero _) => false
  | JNum S754_nan => false
  | JNum _ => true
  | JStr s => negb (String.eqb s "")
  | JArr _ => true
  | JObj _ => true
  end.

Definition truthy_opt (v : option value) : bool :=
  match v with
  | None => false
  | Some x => truthy x
  end.

(** Own properties of an object literal, first binding of a key. *)
Fixpoint lookup (k : string) (fields : list (string * value)) : option value :=
  match fields with
  | [] => None
  | (k', v) :: rest => if String.eqb k k' then Some v else lookup k rest
  end.

(** [o.k] for a named (non-index) key [k] on a value that is neither
    [null] nor [undefined]: only plain objects carry such a key. *)
Definition get (v : value) (k : string) : option value :=
  match v with
  | JObj fields => lookup k fields
  | _ => None
  end.

(** [o.k = v]: an existing key keeps its place, a new key goes last. *)
Fixpoint set (k : string) (v : value) (fields : list (string * value))
  : list (string * value) :=
  match fields with
  | [] => [(k, v)]
  | (k', v') :: rest =>
      if String.eqb k k' then (k, v) :: rest else (k', v') :: set k v rest
  end.

Definition index_key (i : nat) : string :=
  DecimalString.NilZero.string_of_uint (Nat.to_uint i).

Fixpoint indexed {A : Type} (f : A -> value) (i : nat) (l : list A)
  : list (string * value) :=
  match l with
  | [] => []
  | x :: rest => (index_key i, f x) :: indexed f (S i) rest
  end.

(** Own enumerable properties copied by an object spread [{...v}].
    Arrays and strings contribute their indices (a string one character
    per index, exact on ASCII text); the other primitives and [null]
    contribute nothing. *)
Definition spread (v : value) : list (string * value) :=
  match v with
  | JObj fields => fields
  | JArr items => indexed (fun x => x) 0 items
  | JStr s => indexed (fun c => JStr (String c "")) 0 (list_ascii_of_string s)
  | _ => []
  end.

(** [String.prototype.toLowerCase], exact on ASCII text: the letters
    [A]..[Z] are mapped to [a]..[z], every other byte is kept. *)
Definition lower_ascii (c : ascii) : ascii :=
  let n := nat_of_ascii c in
  if (65 <=? n)%nat && (n <=? 90)%nat then ascii_of_nat (n + 32) else c.

Fixpoint toLowerCase (s : string) : string :=
  match s with
  | EmptyString => EmptyString
  | String c rest => String (lower_ascii c) (toLowerCase rest)
  end.

(** [String.prototype.trim] on the ASCII white space and line
    terminators (tab, line feed, vertical tab, form feed, carriage
    return, space). *)
Definition is_space (c : ascii) : bool :=
  let n := nat_of_ascii c in
  ((9 <=? n)%nat && (n <=? 13)%nat) || (n =? 32)%nat.

Fixpoint trimStart (s : string) : string :=
  match s with
  | EmptyString => EmptyString
  | String c rest => if is_space c then trimStart rest else s
  end.

Fixpoint trimEnd (s : string) : string :=
  match s with
  | EmptyString => EmptyString
  | String c rest =>
      match trimEnd rest with
      | EmptyString => if is_space c then EmptyString else String c EmptyString
      | t => String c t
      end
  end.

Definition trim (s : string) : string := trimEnd (trimStart s).

(** [a || b] on Numbers held as integers: [0] is the only falsy one. *)
Definition or_num (a b : Z) : Z := if (a =? 0)%Z then b else a.

(** [a || b] on strings: the empty string is the only falsy one. *)
Definition or_str (a b : string) : string := if String.eqb a "" then b else a.

End JS.

(* ================================================================== *)
(** * [src/types.ts] *)
(* ================================================================== *)

Inductive Page : Type :=
| Splash | Welcome | SignIn | SignUp | Home | Journal | VoiceLog | MoodScan
| MoodTracker | RecommendationsPage | Safety | SupportChat.

Inductive Mood : Type :=
| Happy | Sad | Neutral | Anxious | Calm | Excited | Tired | Angry | Content.

Inductive Source : Type := SrcJournal | SrcVoice | SrcFacial.

Record MoodEntry : Type := mkMoodEntry {
  id : string;
  mood : Mood;
  emoji : string;
  date : Z;
  source : Source;
  notes : option string
}.

(** [Omit<MoodEntry, 'id' | 'date'>], the argument of [addMoodEntry]. *)
Record MoodEntryInput : Type := mkMoodEntryInput {
  in_mood : Mood;
  in_emoji : string;
  in_source : Source;
  in_notes : option string
}.

Inductive Sender : Type := user_sender | ai_sender.

Record ChatMessage : Type := mkChatMessage {
  msg_id : string;
  msg_text : string;
  msg_sender : Sender
}.

(** The string a [Mood] is at run time. *)
Definition Mood_to_string (m : Mood) : string :=
  match m with
  | Happy => "Happy" | Sad => "Sad" | Neutral => "Neutral"
  | Anxious => "Anxious" | Calm => "Calm" | Excited => "Excited"
  | Tired => "Tired" | Angry => "Angry" | Content => "Content"
  end.

Definition all_moods : list Mood :=
  [Happy; Sad; Neutral; Anxious; Calm; Excited; Tired; Angry; Content].

Definition Mood_eqb (a b : Mood) : bool :=
  String.eqb (Mood_to_string a) (Mood_to_string b).

(** Reading a run-time string back as a member of the enumeration. *)
Definition Mood_of_string (s : string) : option Mood :=
  find (fun m => String.eqb s (Mood_to_string m)) all_moods.

(** [xs.includes(m)] on an array of mood names. *)
Definition includes (xs : list Mood) (m : Mood) : bool :=
  existsb (Mood_eqb m) xs.

(* ================================================================== *)
(** * The Gemini service: [analyzeTextMood], [analyzeImageMood],
      [getRecommendations] *)
(* ================================================================== *)

Module GeminiService.

Import JS.

Definition dq : string := String (ascii_of_nat 34) "".
Definition nl : string := String (ascii_of_nat 10) "".

Definition textModel : string := "gemini-2.5-flash".
Definition visionModel : string := "gemini-2.5-flash".

Inductive VideoType : Type := Meditation | Funny.

Definition VideoType_to_string (t : VideoType) : string :=
  match t with Meditation => "Meditation" | Funny => "Funny" end.

(** The three response schemas sent with a request. *)
Inductive Schema : Type :=
| TextMoodSchema
| ImageMoodSchema
| RecommendationsSchema (videoType : VideoType).

Inductive Contents : Type :=
| Prompt (prompt : string)
| PromptAndImage (prompt : string) (mimeType : string) (data : string).

Record Request : Type := mkRequest {
  req_model : string;
  req_contents : Contents;
  req_schema : Schema
}.

(** How the three statements of a [try] block
      [response = await ai.models.generateContent(...)],
      [response.text.trim()], [JSON.parse(...)]
    can end: the call rejects; the response carries no text, so that
    [.trim()] throws; the text is not JSON, so that [JSON.parse] throws;
    or [JSON.parse] returns a value. *)
Inductive Outcome : Type :=
| Rejected
| NoText
| Malformed
| Parsed (j : value).

(** A computation that may call the remote model: it reads the model's
    behaviour and reports, with its result, the requests it has sent. *)
Definition Remote (A : Type) : Type := (Request -> Outcome) -> A * list Request.

Definition ret {A : Type} (a : A) : Remote A := fun _ => (a, []).

Definition bind {A B : Type} (m : Remote A) (k : A -> Remote B) : Remote B :=
  fun model =>
    let (a, sent) := m model in
    let (b, sent') := k a model in
    (b, sent ++ sent').

Definition generateContent (r : Request) : Remote Outcome :=
  fun model => (model r, [r]).

Definition result_of {A : Type} (m : Remote A) (model : Request -> Outcome) : A :=
  fst (m model).

Definition requests_of {A : Type} (m : Remote A) (model : Request -> Outcome)
  : list Request :=
  snd (m model).

(** ** [analyzeTextMood] *)

Definition textFallback : value :=
  JObj [("mood", JStr "Neutral"); ("emoji", JStr "😐");
        ("notes", JStr "Could not analyze mood.")].

Definition textPrompt (text : string) : string :=
  "Analyze the mood from the following journal entry and provide a brief, gentle, one-sentence summary of its feeling. Entry: "
  ++ dq ++ text ++ dq.

Definition textRequest (text : string) : Request :=
  mkRequest textModel (Prompt (textPrompt text)) TextMoodSchema.

Definition analyzeTextMood (text : string) : Remote value :=
  bind (generateContent (textRequest text))
       (fun out =>
          match out with
          | Parsed resultJson => ret resultJson
          | Rejected | NoText | Malformed => ret textFallback
          end).

(** ** [analyzeImageMood] *)

Definition imageFallback : value :=
  JObj [("mood", JStr "Neutral"); ("emoji", JStr "😐");
        ("notes", JStr "Could not determine mood from image.")].

Definition imagePrompt : string :=
  "Analyze the dominant mood of the person in this image.".

Definition detectedNotes (mood : string) : string :=
  "Detected a " ++ toLowerCase mood ++ " expression.".

(** The body of the [try] block after [JSON.parse]; [None] stands for a
    thrown error: the property access on [null], the explicit [throw], or
    the call of [.toLowerCase] on a mood that is not a string. *)
Definition imageResult (resultJson : value) : option value :=
  match resultJson with
  | JNull => None
  | _ =>
      if truthy_opt (get resultJson "mood") && truthy_opt (get resultJson "emoji")
      then
        match get resultJson "mood", get resultJson "emoji" with
        | Some (JStr m), Some e =>
            Some (JObj [("mood", JStr m); ("emoji", e);
                        ("notes", JStr (detectedNotes m))])
        | _, _ => None
        end
      else None
  end.

Definition imageRequest (base64Image : string) : Request :=
  mkRequest visionModel (PromptAndImage imagePrompt "image/jpeg" base64Image)
            ImageMoodSchema.

Definition analyzeImageMood (base64Image : string) : Remote value :=
  bind (generateContent (imageRequest base64Image))
       (fun out =>
          match out with
          | Parsed resultJson =>
              match imageResult resultJson with
              | Some r => ret r
              | None => ret imageFallback
              end
          | Rejected | NoText | Malformed => ret imageFallback
          end).

(** ** [defaultRecommendations] and [getRecommendations] *)

Definition strings (l : list string) : value := JArr (map JStr l).

Definition playlist (title description : string) : value :=
  JObj [("title", JStr title); ("description", JStr description)].

Definition video (title : string) (type : VideoType) : value :=
  JObj [("title", JStr title); ("type", JStr (VideoType_to_string type))].

Definition defaultBreathing : value :=
  strings ["Take 5 deep breaths.";
           "Try box breathing: inhale 4s, hold 4s, exhale 4s, hold 4s.";
           "Focus on your breath for one minute."].

Definition defaultRecommendations : value :=
  JObj [("forMood", JStr "Neutral");
        ("breathing", defaultBreathing);
        ("journaling",
          strings ["What is one thing you are grateful for today?";
                   "Describe a small moment of joy you experienced.";
                   "What is something you can let go of?"]);
        ("music",
          JArr [playlist "Acoustic Calm" "Gentle instrumental guitar to soothe your mind.";
                playlist "Lofi Beats" "Relaxing hip hop beats for focus and chill."]);
        ("videos",
          JArr [video "5-Minute Guided Meditation for Beginners" Meditation;
                video "Peaceful Forest Stream Sounds" Meditation])].

(** [moodHistory[moodHistory.length - 1]], guarded by the length test. *)
Definition latestEntry (moodHistory : list MoodEntry) : option MoodEntry :=
  if (0 <? List.length moodHistory)%nat
  then nth_error moodHistory (List.length moodHistory - 1)
  else None.

(** [latestEntry?.mood || 'Neutral'] *)
Definition latestMood (moodHistory : list MoodEntry) : Mood :=
  match latestEntry moodHistory with
  | Some e => if String.eqb (Mood_to_string (mood e)) "" then Neutral else mood e
  | None => Neutral
  end.

Definition videoTypeFor (m : Mood) : VideoType :=
  if includes [Sad; Anxious; Angry; Tired] m then Meditation else Funny.

Definition recommendationsPrompt (m : Mood) (videoType : VideoType) : string :=
  "You are a caring and empathetic mental wellness assistant. The user's most recent mood is '"
  ++ Mood_to_string m ++ "'." ++ nl ++
  "  Based on this mood, provide supportive recommendations in JSON format." ++ nl ++
  "  - Suggest 3 simple, calming breathing exercises." ++ nl ++
  "  - Suggest 3 gentle journaling prompts relevant to the mood." ++ nl ++
  "  - Suggest 2 music playlists. For each, provide a catchy title and a short, one-sentence description, like a Spotify playlist." ++ nl ++
  "  - Suggest 2 " ++ VideoType_to_string videoType ++
  " video ideas. For each, provide a short, clickable title, like a YouTube video.".

Definition sadJournaling : value :=
  strings ["What's one small thing that could bring you comfort right now?";
           "Write a letter to your sadness, what would you say?";
           "Recall a memory that once made you happy."].
Definition sadMusic : value :=
  JArr [playlist "Hopeful Ambient" "Gentle soundscapes to lift your spirits.";
        playlist "Comforting Classics" "Familiar, soothing classical pieces."].
Definition sadVideos : value :=
  JArr [video "10-Min Meditation for Sadness" Meditation;
        video "Guided Visualization: Your Safe Place" Meditation].

Definition anxiousJournaling : value :=
  strings ["What is within my control right now?";
           "List 5 things you can see, 4 you can touch, 3 you can hear.";
           "Write down your worries and then physically close the book on them."].
Definition anxiousMusic : value :=
  JArr [playlist "Binaural Beats for Anxiety" "Frequencies designed to calm the mind.";
        playlist "Nature Sounds: Rain on a Window" "The soothing sound of gentle rain."].
Definition anxiousVideos : value :=
  JArr [video "Body Scan Meditation for Anxiety" Meditation;
        video "Guided Breathing for Panic Attacks" Meditation].

Definition angryJournaling : value :=
  strings ["What is the root cause of this anger?";
           "Write down everything you want to scream, then tear up the paper.";
           "What is a productive action I can take with this energy?"].
Definition angryMusic : value :=
  JArr [playlist "Power Rock Anthems" "High-energy tracks to release tension.";
        playlist "Intense Classical" "Dramatic orchestral pieces to match your intensity."].
Definition angryVideos : value :=
  JArr [video "Walking Meditation to Release Anger" Meditation;
        video "Try This When You Feel Angry (Guided Practice)" Meditation].

Definition happyJournaling : value :=
  strings ["What are three things that contributed to this feeling?";
           "How can you share this positive energy with others?";
           "Describe this feeling in as much detail as possible."].
Definition happyMusic : value :=
  JArr [playlist "Good Vibes Only" "Upbeat pop and indie tracks to keep the energy high.";
        playlist "Dance Party USA" "Non-stop hits that make you want to move."].
Definition happyVideos : value :=
  JArr [video "Try Not to Laugh Challenge" Funny;
        video "Cute Animals Compilation" Funny].

(** The three assignments of one [case] of the fallback [switch]. *)
Definition override (journaling music videos : value)
           (fallback : list (string * value)) : list (string * value) :=
  set "videos" videos (set "music" music (set "journaling" journaling fallback)).

(** The [catch] block: [{ ...defaultRecommendations, forMood: latestMood }]
    followed by the [switch] on [latestMood]. *)
Definition recommendationsFallback (m : Mood) : value :=
  let fallback := set "forMood" (JStr (Mood_to_string m)) (spread defaultRecommendations) in
  JObj match m with
       | Sad => override sadJournaling sadMusic sadVideos fallback
       | Anxious => override anxiousJournaling anxiousMusic anxiousVideos fallback
       | Angry => override angryJournaling angryMusic angryVideos fallback
       | Happy | Excited => override happyJournaling happyMusic happyVideos fallback
       | Neutral | Calm | Tired | Content => fallback
       end.

(** The request of [getRecommendations]: the prompt and the schema are
    both parameterized by the video type derived from the latest mood. *)
Definition recommendationsRequest (m : Mood) : Request :=
  let videoType := videoTypeFor m in
  mkRequest textModel (Prompt (recommendationsPrompt m videoType))
            (RecommendationsSchema videoType).

Definition getRecommendations (moodHistory : list MoodEntry) : Remote value :=
  let m := latestMood moodHistory in
  if (List.length moodHistory =? 0)%nat then ret defaultRecommendations
  else
    bind (generateContent (recommendationsRequest m))
         (fun out =>
            match out with
            | Parsed parsed =>
                ret (JObj (set "forMood" (JStr (Mood_to_string m)) (spread parsed)))
            | Rejected | NoText | Malformed => ret (recommendationsFallback m)
            end).

(** ** The response schemas

    What each [responseSchema] asks of the parsed response: the required
    properties, their types and their [enum] values. *)
Definition isParsed (out : Outcome) : bool :=
  match out with
  | Parsed _ => true
  | Rejected | NoText | Malformed => false
  end.

Definition stringIn (allowed : list string) (v : option value) : bool :=
  match v with
  | Some (JStr s) => existsb (String.eqb s) allowed
  | _ => false
  end.

Definition isString (v : option value) : bool :=
  match v with
  | Some (JStr _) => true
  | _ => false
  end.

Definition arrayOf (item : value -> bool) (v : option value) : bool :=
  match v with
  | Some (JArr items) => forallb item items
  | _ => false
  end.

Definition isObject (v : value) : bool :=
  match v with
  | JObj _ => true
  | _ => false
  end.

Definition moodNames : list string := map Mood_to_string all_moods.

Definition textMoodSchemaOk (j : value) : bool :=
  isObject j && isString (get j "emoji") && stringIn moodNames (get j "mood")
  && isString (get j "notes").


Definition playlistOk (v : value) : bool :=
  isObject v && isString (get v "title") && isString (get v "description").

Definition videoOk (v : value) : bool :=
  isObject v && isString (get v "title")
  && stringIn ["Meditation"; "Funny"] (get v "type").

Definition recommendationsSchemaOk (j : value) : bool :=
  isObject j
  && arrayOf (fun v => isString (Some v)) (get j "breathing")
  && arrayOf (fun v => isString (Some v)) (get j "journaling")
  && arrayOf playlistOk (get j "music")
  && arrayOf videoOk (get j "videos").

(** The three failures the specification names: transport, parse, and a
    parsed response that violates the schema. *)
Definition failed (schemaOk : value -> bool) (out : Outcome) : bool :=
  match out with
  | Parsed j => negb (schemaOk j)
  | Rejected | NoText | Malformed => true
  end.

End GeminiService.

(* ================================================================== *)
(** * Number arithmetic used by the tracker *)
(* ================================================================== *)

Module Number.

Local Open Scope Z_scope.

(** A positive finite double, written [m * 2^e].  The tracker divides
    one array count by an array length and multiplies by [100]: all the
    operands are positive integers below [2^32], and every intermediate
    result lies in the normal range, so rounding to nearest (ties to even)
    at 53 bits of precision is all of IEEE 754 that takes part. *)
Definition dyadic : Type := (Z * Z)%type.

(** The integer nearest to [a / b], ties to even ([0 <= a], [0 < b]). *)
Definition rne_div (a b : Z) : Z :=
  let q := a / b in
  let r := a mod b in
  if 2 * r <? b then q
  else if b <? 2 * r then q + 1
  else if Z.even q then q else q + 1.

(** [floor (log2 (n / d))] for positive [n] and [d]. *)
Definition binade (n d : Z) : Z :=
  let k := Z.log2 n - Z.log2 d in
  if d * 2 ^ Z.log2 n <=? n * 2 ^ Z.log2 d then k else k - 1.

(** The double nearest to the positive rational [n / d]: the exponent is
    chosen so that the significand has 53 bits. *)
Definition round (n d : Z) : dyadic :=
  if n <=? 0 then (0, 0)
  else
    let e := binade n d - 52 in
    if e <? 0 then (rne_div (n * 2 ^ (- e)) d, e)
    else (rne_div n (d * 2 ^ e), e).

(** [a / b] on two integer-valued Numbers. *)
Definition div (a b : Z) : dyadic := round a b.

(** [x * k] for an integer-valued Number [k]. *)
Definition mul (x : dyadic) (k : Z) : dyadic :=
  let (m, e) := x in
  if e <? 0 then round (m * k) (2 ^ (- e)) else round (m * k * 2 ^ e) 1.

(** [Math.round]: the nearest integer, a tie going up; that is
    [floor (x + 1/2)] computed exactly. *)
Definition Math_round (x : dyadic) : Z :=
  let (m, e) := x in
  if e <? 0 then (2 * m + 2 ^ (- e)) / 2 ^ (1 - e) else m * 2 ^ e.

(** The same operations in the Standard Library's reference semantics of
    binary64, against which [div] and [mul] are checked below. *)
Definition of_Z (z : Z) : spec_float := binary_normalize 53 1024 z 0 false.

Definition to_spec (x : dyadic) : spec_float :=
  binary_normalize 53 1024 (fst x) (snd x) false.

Definition spec_same (x y : spec_float) : bool :=
  match x, y with
  | S754_finite sx mx ex, S754_finite sy my ey =>
      Bool.eqb sx sy && Pos.eqb mx my && Z.eqb ex ey
  | _, _ => false
  end.

Definition agrees (c t : Z) : bool :=
  let q := SFdiv 53 1024 (of_Z c) (of_Z t) in
  spec_same q (to_spec (div c t))
  && spec_same (SFmul 53 1024 q (of_Z 100)) (to_spec (mul (div c t) 100)).

(** Some counts and totals near the ends of the range of array lengths. *)
Definition agrees_on_samples : bool :=
  forallb (fun ct => agrees (fst ct) (snd ct))
          [(1, 4294967295); (4294967295, 4294967295); (4294967294, 4294967295);
           (123456789, 4294967295); (2147483648, 4294967295); (3, 4294967294);
           (23, 40); (29, 200); (57, 200); (1, 3); (2, 3); (1, 200); (999983, 1000003)].

(** [agrees c t] for every [1 <= c <= t <= n]. *)
Definition agrees_upto (n : nat) : bool :=
  forallb (fun t =>
             forallb (fun c => agrees (Z.of_nat c) (Z.of_nat t)) (seq 1 t))
          (seq 1 n).

End Number.

(* ================================================================== *)
(** * The mood tracker: [moodToValue], [MoodChart], [emotionStats] *)
(* ================================================================== *)

Module Tracker.

Local Open Scope Z_scope.

(** ** [moodToValue] *)

Definition mapping (m : Mood) : Z :=
  match m with
  | Angry => 0
  | Sad => 1
  | Tired => 2
  | Anxious => 3
  | Neutral => 4
  | Content => 5
  | Calm => 6
  | Excited => 7
  | Happy => 8
  end.

(** [return mapping[mood] || 4;] *)
Definition moodToValue (m : Mood) : Z := JS.or_num (mapping m) 4.

(** ** [MoodChart] *)

Record ChartPoint : Type := mkChartPoint {
  cp_date : string;
  moodValue : Z;
  cp_mood : Mood
}.

(** [data.map(entry => ({ date: ..., moodValue: moodToValue(entry.mood),
    mood: entry.mood }))]; [label] stands for the locale formatting
    [toLocaleDateString('en-US', { month: 'short', day: 'numeric' })]. *)
Definition chartData (label : Z -> string) (data : list MoodEntry) : list ChartPoint :=
  map (fun entry => mkChartPoint (label (date entry)) (moodToValue (mood entry)) (mood entry))
      data.

Inductive ChartView : Type :=
| NotEnoughData
| LineChart (points : list ChartPoint).

Definition MoodChart (label : Z -> string) (data : list MoodEntry) : ChartView :=
  let points := chartData label data in
  if (List.length points <? 2)%nat then NotEnoughData else LineChart points.

(** ** Objects keyed by mood

    [Record<Mood, V>] built by assignment: [Object.entries] lists the keys
    in the order of their first assignment. *)
Fixpoint rec_get {V : Type} (m : Mood) (acc : list (Mood * V)) : option V :=
  match acc with
  | [] => None
  | (m', v) :: rest => if Mood_eqb m m' then Some v else rec_get m rest
  end.

Fixpoint rec_set {V : Type} (m : Mood) (v : V) (acc : list (Mood * V))
  : list (Mood * V) :=
  match acc with
  | [] => [(m, v)]
  | (m', v') :: rest =>
      if Mood_eqb m m' then (m, v) :: rest else (m', v') :: rec_set m v rest
  end.

(** [x || d] where [x] may be [undefined]. *)
Definition or_num_opt (x : option Z) (d : Z) : Z :=
  match x with
  | Some v => JS.or_num v d
  | None => d
  end.

Definition or_str_opt (x : option string) (d : string) : string :=
  match x with
  | Some v => JS.or_str v d
  | None => d
  end.

(** [!x] where [x] is a string or [undefined]. *)
Definition not_str_opt (x : option string) : bool :=
  match x with
  | Some v => String.eqb v ""
  | None => true
  end.

(** ** [emotionStats] *)

Record Stat : Type := mkStat {
  s_mood : Mood;
  s_count : Z;
  s_percentage : Z;
  s_emoji : string
}.

(** [data.reduce((acc, entry) => { acc[entry.mood] = (acc[entry.mood] || 0) + 1;
    return acc; }, {})] *)
Definition countStep (acc : list (Mood * Z)) (entry : MoodEntry) : list (Mood * Z) :=
  rec_set (mood entry) (or_num_opt (rec_get (mood entry) acc) 0 + 1) acc.

Definition counts (data : list MoodEntry) : list (Mood * Z) :=
  fold_left countStep data [].

(** [moodHistory.reduce((acc, entry) => { if (!acc[entry.mood]) {
    acc[entry.mood] = entry.emoji; } return acc; }, {})] *)
Definition emojiStep (acc : list (Mood * string)) (entry : MoodEntry)
  : list (Mood * string) :=
  if not_str_opt (rec_get (mood entry) acc)
  then rec_set (mood entry) (emoji entry) acc
  else acc.

Definition emojiMap (moodHistory : list MoodEntry) : list (Mood * string) :=
  fold_left emojiStep moodHistory [].

(** [Math.round((count / total) * 100)] *)
Definition percentage (count total : Z) : Z :=
  Number.Math_round (Number.mul (Number.div count total) 100).

(** The emoji literal of the [||] default.  The source text shows it
    through a wrong character set; it is the neutral face used by the
    service fallbacks. *)
Definition defaultEmoji : string := "😐".

(** [Array.prototype.sort] with the comparator [(a, b) => b.count - a.count]:
    a stable sort, here by insertion from the right. *)
Definition compareStats (a b : Stat) : Z := s_count b - s_count a.

Fixpoint insertStat (x : Stat) (l : list Stat) : list Stat :=
  match l with
  | [] => [x]
  | y :: rest =>
      if compareStats x y <=? 0 then x :: y :: rest else y :: insertStat x rest
  end.

Definition sortStats (l : list Stat) : list Stat := fold_right insertStat [] l.

(** The callback of [.map] over [Object.entries(counts)]. *)
Definition statOf (total : Z) (emojis : list (Mood * string)) (entry : Mood * Z) : Stat :=
  let '(m, count) := entry in
  mkStat m count (percentage count total) (or_str_opt (rec_get m emojis) defaultEmoji).

Definition emotionStats (data moodHistory : list MoodEntry) : list Stat :=
  if (List.length data =? 0)%nat then []
  else
    let total := Z.of_nat (List.length data) in
    let emojis := emojiMap moodHistory in
    sortStats (map (statOf total emojis) (counts data)).

(** The windows of the tracker screen: [moodHistory.filter(entry =>
    new Date(entry.date) >= cutoff)]. *)
Definition since (cutoff : Z) (moodHistory : list MoodEntry) : list MoodEntry :=
  filter (fun entry => cutoff <=? date entry) moodHistory.

(** ** Notions used to state what [emotionStats] computes *)

(** How many entries of [data] have mood [m]. *)
Definition occurrences (m : Mood) (data : list MoodEntry) : Z :=
  Z.of_nat (List.length (filter (fun e => Mood_eqb (mood e) m) data)).



(** The rows before [.sort]. *)
Definition unsortedStats (data moodHistory : list MoodEntry) : list Stat :=
  map (statOf (Z.of_nat (List.length data)) (emojiMap moodHistory)) (counts data).

Definition totalCount (rows : list Stat) : Z :=
  fold_right Z.add 0 (map s_count rows).

Definition byCountDescending (a b : Stat) : Prop := s_count b <= s_count a.

(** A row without its emoji, as the specification lists rows. *)
Definition summary (r : Stat) : Mood * Z * Z := (s_mood r, s_count r, s_percentage r).

Definition valueOr0 (x : option Z) : Z :=
  match x with
  | Some c => c
  | None => 0
  end.

(** The loop invariants of the two [reduce] calls, [seen] being the
    entries consumed so far. *)
Definition countsInv (acc : list (Mood * Z)) (seen : list MoodEntry) : Prop :=
  NoDup (map fst acc)
  /\ (forall m, rec_get m acc
                = if 0 <? occurrences m seen then Some (occurrences m seen) else None)
  /\ fold_right Z.add 0 (map snd acc) = Z.of_nat (List.length seen).


End Tracker.

(* ================================================================== *)
(** * The application container: session state and its handlers *)
(* ================================================================== *)

Module App.

(** The chat session created by [startChatSession]. *)
Record Chat : Type := mkChat {
  chat_model : string;
  systemInstruction : string
}.

Definition startChatSession : Chat :=
  mkChat GeminiService.textModel
    "You are MindWell, a friendly and empathetic AI wellness assistant. Your goal is to provide a safe space for users to express their feelings. Offer supportive words, calming suggestions like breathing exercises or journaling prompts, and be a good listener. If a user asks for music, suggest a type of relaxing music. If they ask to journal, encourage them and perhaps offer a prompt. Keep your responses concise and gentle.".

(** How [await chatSessionRef.current.sendMessage({ message })] followed
    by [response.text.trim()] can end: the call rejects, the response has
    no text, or it has one. *)
Inductive ChatOutcome : Type :=
| ChatRejected
| ChatNoText
| ChatText (text : string).

(** The state held by [App]: five [useState] cells and one ref. *)
Record AppState : Type := mkAppState {
  currentPage : Page;
  user : string;
  moodHistory : list MoodEntry;
  highDistressAlert : bool;
  chatSessionRef : option Chat;
  chatHistory : list ChatMessage;
  isAiTyping : bool
}.

Definition initialState : AppState :=
  mkAppState Splash "Alex" [] false None [] false.

(** A call of a state setter (or the assignment to the ref); an updater
    function is kept as a function of the previous value. *)
Inductive SetterCall : Type :=
| setCurrentPage (page : Page)
| setUser (name : string)
| setMoodHistory (f : list MoodEntry -> list MoodEntry)
| setHighDistressAlert (isAlert : bool)
| setChatSessionRef (chat : Chat)
| setChatHistory (f : list ChatMessage -> list ChatMessage)
| setIsAiTyping (typing : bool).

Definition apply (st : AppState) (c : SetterCall) : AppState :=
  match c with
  | setCurrentPage page =>
      mkAppState page (user st) (moodHistory st) (highDistressAlert st)
                 (chatSessionRef st) (chatHistory st) (isAiTyping st)
  | setUser name =>
      mkAppState (currentPage st) name (moodHistory st) (highDistressAlert st)
                 (chatSessionRef st) (chatHistory st) (isAiTyping st)
  | setMoodHistory f =>
      mkAppState (currentPage st) (user st) (f (moodHistory st)) (highDistressAlert st)
                 (chatSessionRef st) (chatHistory st) (isAiTyping st)
  | setHighDistressAlert isAlert =>
      mkAppState (currentPage st) (user st) (moodHistory st) isAlert
                 (chatSessionRef st) (chatHistory st) (isAiTyping st)
  | setChatSessionRef chat =>
      mkAppState (currentPage st) (user st) (moodHistory st) (highDistressAlert st)
                 (Some chat) (chatHistory st) (isAiTyping st)
  | setChatHistory f =>
      mkAppState (currentPage st) (user st) (moodHistory st) (highDistressAlert st)
                 (chatSessionRef st) (f (chatHistory st)) (isAiTyping st)
  | setIsAiTyping typing =>
      mkAppState (currentPage st) (user st) (moodHistory st) (highDistressAlert st)
                 (chatSessionRef st) (chatHistory st) typing
  end.

Definition applyAll (st : AppState) (calls : list SetterCall) : AppState :=
  fold_left apply calls st.

(** The test of [addMoodEntry]: [['Sad', 'Angry', 'Anxious'].includes(newEntry.mood)]. *)
Definition isHighDistress (m : Mood) : bool := includes [Sad; Angry; Anxious] m.

Definition decimal (z : Z) : string := NilZero.string_of_int (Z.to_int z).

Section Handlers.

(** [Date.prototype.toISOString], the text of an instant. *)
Variable toISOString : Z -> string.

Definition navigate (page : Page) : list SetterCall := [setCurrentPage page].

(** [handleSignUp] of the sign-up screen. *)
Definition handleSignUp (name : string) : list SetterCall :=
  [setUser (JS.or_str (JS.trim name) "Friend")] ++ navigate Home.

(** [addMoodEntry]; [idNow] and [dateNow] are the two readings of the
    clock, [new Date().toISOString()] and [new Date()]. *)
Definition newEntry (entry : MoodEntryInput) (idNow dateNow : Z) : MoodEntry :=
  mkMoodEntry (toISOString idNow) (in_mood entry) (in_emoji entry) dateNow
              (in_source entry) (in_notes entry).

Definition addMoodEntry (entry : MoodEntryInput) (idNow dateNow : Z) : list SetterCall :=
  let e := newEntry entry idNow dateNow in
  [setMoodHistory (fun prev => prev ++ [e])]
  ++ (if isHighDistress (mood e) then [setHighDistressAlert true] else []).

(** [handleDismiss] of the safety screen. *)
Definition handleDismiss : list SetterCall :=
  [setHighDistressAlert false] ++ navigate Home.

Definition greeting : ChatMessage :=
  mkChatMessage "init-1"
    "Hello! I'm your MindWell assistant. How can I support you right now?"
    ai_sender.

Definition initializeChat (st : AppState) : list SetterCall :=
  match chatSessionRef st with
  | None => [setChatSessionRef startChatSession; setChatHistory (fun _ => [greeting])]
  | Some _ => []
  end.

Definition chatApology : string :=
  "I'm having a little trouble connecting right now. Please try again in a moment.".

(** [sendMessage]: the setter calls in program order and the messages
    handed to the chat session.  [userNow] and [aiNow] are the readings of
    [Date.now()] for the two identifiers, [reply] is what the session
    answers. *)
Definition sendMessage (st : AppState) (message : string)
           (userNow : Z) (reply : ChatOutcome) (aiNow : Z)
  : list SetterCall * list string :=
  match chatSessionRef st with
  | None => ([], [])
  | Some _ =>
      let userMessage := mkChatMessage ("user-" ++ decimal userNow) message user_sender in
      let answer :=
        match reply with
        | ChatText text =>
            mkChatMessage ("ai-" ++ decimal aiNow) (JS.trim text) ai_sender
        | ChatRejected | ChatNoText =>
            mkChatMessage ("ai-" ++ decimal aiNow) chatApology ai_sender
        end in
      ([setChatHistory (fun prev => prev ++ [userMessage]);
        setIsAiTyping true;
        setChatHistory (fun prev => prev ++ [answer]);
        setIsAiTyping false],
       [message])
  end.

(** The operations a session offers, each with what the environment
    supplies to it (clock readings, the chat reply). *)
Inductive Action : Type :=
| DoNavigate (page : Page)
| DoSignUp (name : string)
| DoAddMoodEntry (entry : MoodEntryInput) (idNow dateNow : Z)
| DoDismiss
| DoInitializeChat
| DoSendMessage (message : string) (userNow : Z) (reply : ChatOutcome) (aiNow : Z).

Definition calls (st : AppState) (a : Action) : list SetterCall :=
  match a with
  | DoNavigate page => navigate page
  | DoSignUp name => handleSignUp name
  | DoAddMoodEntry entry idNow dateNow => addMoodEntry entry idNow dateNow
  | DoDismiss => handleDismiss
  | DoInitializeChat => initializeChat st
  | DoSendMessage message userNow reply aiNow =>
      fst (sendMessage st message userNow reply aiNow)
  end.

Definition step (st : AppState) (a : Action) : AppState :=
  applyAll st (calls st a).

Definition run (st : AppState) (actions : list Action) : AppState :=
  fold_left step actions st.

(** What a run takes from the clock for the [date] of its entries, and
    the entries it creates, in the order of the run. *)
Definition added (a : Action) : list MoodEntry :=
  match a with
  | DoAddMoodEntry entry idNow dateNow => [newEntry entry idNow dateNow]
  | _ => []
  end.

Definition entriesAdded (actions : list Action) : list MoodEntry :=
  flat_map added actions.

Definition dateReadings (actions : list Action) : list Z :=
  map date (entriesAdded actions).

Definition isDismiss (a : Action) : bool :=
  match a with
  | DoDismiss => true
  | _ => false
  end.

Definition isInitializeChat (a : Action) : bool :=
  match a with
  | DoInitializeChat => true
  | _ => false
  end.

End Handlers.

End App.

(* ================================================================== *)
(** * Sample inputs *)
(* ================================================================== *)

Module Sample.

Import JS GeminiService.

Definition sadEntry : MoodEntry :=
  mkMoodEntry "2026-01-01T00:00:00.000Z" Sad "😢" 1767225600000 SrcJournal None.

(** A response that satisfies the text schema and carries an empty emoji. *)
Definition emptyEmojiReply : value :=
  JObj [("emoji", JStr ""); ("mood", JStr "Happy"); ("notes", JStr "A bright day.")].



Definition calmInput : MoodEntryInput := mkMoodEntryInput Calm "😌" SrcVoice None.

Definition sadInput : MoodEntryInput :=
  mkMoodEntryInput Sad "😢" SrcJournal (Some "A heavy day.").

Definition isoStub (t : Z) : string := "t" ++ App.decimal t.

Definition entryOf (m : Mood) (e : string) : MoodEntry :=
  mkMoodEntry "2026-01-01T00:00:00.000Z" m e 1767225600000 SrcJournal None.

(** The history of the specification's example. *)
Definition happyHappySad : list MoodEntry :=
  [entryOf Happy "😄"; entryOf Happy "😄"; entryOf Sad "😢"].



End Sample.

(* ================================================================== *)
(** * The screens: what they derive from the state and what their
      handlers do *)
(* ================================================================== *)

Module Screens.

Import JS GeminiService.

(** [xs.slice(-n)]: the last [n] elements, all of them when there are
    fewer. *)
Definition sliceLast {A : Type} (n : nat) (xs : list A) : list A :=
  skipn (List.length xs - n) xs.

(** [RecentMoods]: [data.slice(-5).reverse()]. *)
Definition recentEntries (data : list MoodEntry) : list MoodEntry :=
  rev (sliceLast 5 data).



(** [HomeScreen]: the summary reads the last entry, the chart the last
    ten. *)
Definition homeLatest (moodHistory : list MoodEntry) : option MoodEntry :=
  if (0 <? List.length moodHistory)%nat
  then nth_error moodHistory (List.length moodHistory - 1)
  else None.

Definition homeChart (label : Z -> string) (moodHistory : list MoodEntry)
  : Tracker.ChartView :=
  Tracker.MoodChart label (sliceLast 10 moodHistory).

(** [RecommendationsScreen]: the heading over the videos,
    [recommendations.videos[0]?.type === 'Funny' ? 'Funny Videos' :
    'Meditation Videos'].  [None] stands for the [TypeError] of indexing
    a [videos] that is [undefined] or [null]. *)
Definition first (v : value) : option value :=
  match v with
  | JArr items => nth_error items 0
  | JStr (String c _) => Some (JStr (String c ""))
  | JObj fields => lookup "0" fields
  | _ => None
  end.

Definition optionalType (v : option value) : option value :=
  match v with
  | None | Some JNull => None
  | Some x => get x "type"
  end.

Definition isFunny (v : option value) : bool :=
  match v with
  | Some (JStr s) => String.eqb s "Funny"
  | _ => false
  end.

Definition videosHeading (recommendations : value) : option string :=
  match get recommendations "videos" with
  | None | Some JNull => None
  | Some videos =>
      Some (if isFunny (optionalType (first videos))
            then "Funny Videos" else "Meditation Videos")
  end.

(** ** Handlers of the logging screens *)

(** The argument a screen hands to [addMoodEntry],
    [{ ...result, source }]: a value of the declared type when [result]
    carries an enumerated mood, a string emoji and, if any, string notes;
    otherwise the object as it is. *)
Inductive EntryArgument : Type :=
| Typed (entry : MoodEntryInput)
| Untyped (fields : list (string * value)).

Definition Source_to_string (s : Source) : string :=
  match s with
  | SrcJournal => "Journal"
  | SrcVoice => "Voice"
  | SrcFacial => "Facial"
  end.

Definition moodOf (v : option value) : option Mood :=
  match v with
  | Some (JStr s) => Mood_of_string s
  | _ => None
  end.

Definition entryArgument (result : value) (source : Source) : EntryArgument :=
  let fields := set "source" (JStr (Source_to_string source)) (spread result) in
  match moodOf (lookup "mood" fields), lookup "emoji" fields, lookup "notes" fields with
  | Some m, Some (JStr e), Some (JStr n) => Typed (mkMoodEntryInput m e source (Some n))
  | Some m, Some (JStr e), None => Typed (mkMoodEntryInput m e source None)
  | _, _, _ => Untyped fields
  end.

(** The mood and emoji shown by the scan screen after an analysis. *)
Record Detected : Type := mkDetected {
  detected_mood : option value;
  detected_emoji : option value
}.

(** What a handler does, in program order: calls of its screen's own
    state setters and calls of the functions of the application context. *)
Inductive Effect : Type :=
| setIsLoading (loading : bool)
| setError (message : option string)
| setDetectedMood (detected : option Detected)
| setInput (text : string)
| callAddMoodEntry (entry : EntryArgument)
| callNavigate (page : Page)
| callSendMessage (message : string).




(** [s.split(',')] *)
Fixpoint splitComma (s : string) : list string :=
  match s with
  | EmptyString => [EmptyString]
  | String c rest =>
      if Ascii.eqb c ","%char then EmptyString :: splitComma rest
      else
        match splitComma rest with
        | [] => [String c EmptyString]
        | piece :: pieces => String c piece :: pieces
        end
  end.

(** What the scan screen finds when no picture was uploaded: the video
    or the canvas is not mounted, the video has no frame yet, the canvas
    gives no drawing context, or the frame is drawn and encoded by
    [canvas.toDataURL('image/jpeg')]. *)
Inductive Camera : Type :=
| NotMounted
| NoFrame
| NoContext
| Frame (dataURL : string).

(** [handleCaptureAndAnalyze] of the scan screen.  Every path starts
    with [setIsLoading(true); setDetectedMood(null); setError(null)]. *)
Definition scanStart : list Effect :=
  [setIsLoading true; setDetectedMood None; setError None].

Definition scanStops (message : string) : Remote (list Effect) :=
  ret (scanStart ++ [setError (Some message); setIsLoading false]).

(** From a data URL on: [base64Image = dataURL.split(',')[1]], the test
    [!base64Image], and the analysis.  [analyzeImageMood] catches every
    error of the call itself and always returns an object, so the [catch]
    branch of the handler has no case here. *)
Definition scanImage (dataURL : string) : Remote (list Effect) :=
  match nth_error (splitComma dataURL) 1 with
  | Some EmptyString | None => scanStops "Could not get image data to analyze."
  | Some base64Image =>
      bind (analyzeImageMood base64Image)
           (fun result =>
              ret (scanStart ++
                   [setDetectedMood
                      (Some (mkDetected (get result "mood") (get result "emoji")));
                    callAddMoodEntry (entryArgument result SrcFacial);
                    setIsLoading false]))
  end.

Definition scanCamera (camera : Camera) : Remote (list Effect) :=
  match camera with
  | NotMounted => scanStops "Camera is not ready."
  | NoFrame => scanStops "Camera is not providing a valid image yet."
  | NoContext => scanStops "Could not get canvas context"
  | Frame dataURL => scanImage dataURL
  end.

Definition handleCaptureAndAnalyze (isLoading : bool) (uploadedImage : option string)
           (camera : Camera) : Remote (list Effect) :=
  if isLoading then ret []
  else
    match uploadedImage with
    | Some EmptyString | None => scanCamera camera
    | Some image => scanImage image
    end.



(** ** Notions used to state what the screens show *)

(** The number of items of an array-valued property. *)
Definition itemCount (v : option value) : option nat :=
  match v with
  | Some (JArr items) => Some (List.length items)
  | _ => None
  end.

(** The heading that goes with a video type. *)
Definition headingFor (t : VideoType) : string :=
  match t with
  | Funny => "Funny Videos"
  | Meditation => "Meditation Videos"
  end.

End Screens.

(* ================================================================== *)
(** * Further notions used to state properties *)
(* ================================================================== *)

Module Notions.

Local Open Scope Z_scope.

(** The chart point of an entry. *)
Definition pointOf (label : Z -> string) (entry : MoodEntry) : Tracker.ChartPoint :=
  Tracker.mkChartPoint (label (date entry)) (Tracker.moodToValue (mood entry)) (mood entry).

Definition totalPercentage (rows : list Tracker.Stat) : Z :=
  fold_right Z.add 0 (map Tracker.s_percentage rows).

Definition byPercentageDescending (a b : Tracker.Stat) : Prop :=
  Tracker.s_percentage b <= Tracker.s_percentage a.

(** The position of the first entry of mood [m], the length of the list
    when there is none. *)
Fixpoint firstIndex (m : Mood) (data : list MoodEntry) : nat :=
  match data with
  | [] => 0%nat
  | e :: rest => if Mood_eqb (mood e) m then 0%nat else S (firstIndex m rest)
  end.

(** Row [a] goes before row [b]: it has the larger count, or the same
    count and a mood seen earlier in [data]. *)
Definition ranksBefore (data : list MoodEntry) (a b : Tracker.Stat) : Prop :=
  Tracker.s_count b < Tracker.s_count a
  \/ (Tracker.s_count a = Tracker.s_count b
      /\ (firstIndex (Tracker.s_mood a) data < firstIndex (Tracker.s_mood b) data)%nat).

(** The alert after a run, read off the actions alone. *)
Fixpoint alertAfter (alert : bool) (actions : list App.Action) : bool :=
  match actions with
  | [] => alert
  | App.DoDismiss :: rest => alertAfter false rest
  | App.DoAddMoodEntry entry _ _ :: rest =>
      alertAfter (App.isHighDistress (in_mood entry) || alert) rest
  | _ :: rest => alertAfter alert rest
  end.



(** The entry a screen logs when the analysis of a text fails. *)
Definition neutralInput (source : Source) (notes : string) : MoodEntryInput :=
  mkMoodEntryInput Neutral "😐" source (Some notes).

Definition isAddMoodEntry (e : Screens.Effect) : bool :=
  match e with
  | Screens.callAddMoodEntry _ => true
  | _ => false
  end.

Definition isNavigate (e : Screens.Effect) : bool :=
  match e with
  | Screens.callNavigate _ => true
  | _ => false
  end.





(** The readings of the clock that become the identifiers of the
    entries of a run, in order. *)
Definition idReading (a : App.Action) : list Z :=
  match a with
  | App.DoAddMoodEntry _ idNow _ => [idNow]
  | _ => []
  end.

Definition idReadings (actions : list App.Action) : list Z :=
  flat_map idReading actions.

End Notions.

(* ================================================================== *)
(** * Properties *)
(* ================================================================== *)

Import JS GeminiService Sample.

(** ** Moods and their names *)

Lemma Mood_eqb_eq (a b : Mood) : Mood_eqb a b = true <-> a = b.
Proof.
  split.
  - destruct a, b; try reflexivity; intro H; vm_compute in H; discriminate H.
  - intros ->. destruct b; reflexivity.
Qed.

Lemma Mood_eqb_refl (a : Mood) : Mood_eqb a a = true.
Proof. apply Mood_eqb_eq; reflexivity. Qed.

Lemma Mood_eqb_sym (a b : Mood) : Mood_eqb a b = Mood_eqb b a.
Proof. destruct a, b; reflexivity. Qed.


Lemma Mood_name_truthy (m : Mood) : String.eqb (Mood_to_string m) "" = false.
Proof. destruct m; reflexivity. Qed.

(** ** The trend series *)

(** C1 (the code departs from the claim).  [moodToValue] reads the scale
    Angry=0 .. Happy=8 from [mapping] and then applies [|| 4]: the value
    [0] of [Angry] is falsy, so an entry with mood [Angry] is plotted at
    [4], the value of [Neutral]; the other eight moods are plotted at
    their scale value, [Happy] at [8]. *)
Theorem moodToValue_on_every_mood :
  map Tracker.mapping all_moods = [8; 1; 4; 3; 6; 7; 2; 0; 5]%Z /\
  map Tracker.moodToValue all_moods = [8; 1; 4; 3; 6; 7; 2; 4; 5]%Z /\
  Tracker.moodToValue Angry = 4%Z /\
  (forall label : Z -> string,
      Tracker.MoodChart label [entryOf Angry "😡"; entryOf Happy "😄"]
      = Tracker.LineChart
          [Tracker.mkChartPoint (label 1767225600000%Z) 4 Angry;
           Tracker.mkChartPoint (label 1767225600000%Z) 8 Happy]) /\
  forall (label : Z -> string) (before after : list MoodEntry) (entry : MoodEntry),
    mood entry = Angry ->
    exists points points',
      Tracker.chartData label (before ++ entry :: after)
      = points ++ Tracker.mkChartPoint (label (date entry)) 4 Angry :: points'
      /\ List.length points = List.length before.
Proof.
  split; [reflexivity|]. split; [reflexivity|]. split; [reflexivity|].
  split; [intro label; reflexivity|].
  intros label before after entry Hm.
  exists (Tracker.chartData label before), (Tracker.chartData label after).
  unfold Tracker.chartData. rewrite map_app. cbn [map]. rewrite Hm.
  split; [reflexivity | apply length_map].
Qed.

Lemma moodToValue_on_every_mood_witness :
  exists points points',
    Tracker.chartData (fun _ => "Nov 2")
      ([] ++ mkMoodEntry "a" Angry "x" 0 SrcJournal None
          :: [mkMoodEntry "b" Happy "y" 1 SrcVoice None])
    = points ++ Tracker.mkChartPoint "Nov 2" 4 Angry :: points'
    /\ List.length points = 0%nat.
Proof.
  apply (proj2 (proj2 (proj2 (proj2 moodToValue_on_every_mood)))
           (fun _ => "Nov 2") [] [mkMoodEntry "b" Happy "y" 1 SrcVoice None]
           (mkMoodEntry "a" Angry "x" 0 SrcJournal None)).
  reflexivity.
Defined.

(** ** The recommendation generator *)

Lemma latestEntry_last (history : list MoodEntry) (e : MoodEntry) :
  latestEntry (history ++ [e]) = Some e.
Proof.
  unfold latestEntry. rewrite length_app. cbn [List.length].
  replace (0 <? List.length history + 1)%nat with true
    by (symmetry; apply Nat.ltb_lt; lia).
  replace (List.length history + 1 - 1)%nat with (List.length history) by lia.
  rewrite nth_error_app2 by lia. rewrite Nat.sub_diag. reflexivity.
Qed.

Lemma latestMood_last (history : list MoodEntry) (e : MoodEntry) :
  latestMood (history ++ [e]) = mood e.
Proof.
  unfold latestMood. rewrite latestEntry_last, Mood_name_truthy. reflexivity.
Qed.

Lemma getRecommendations_nonempty (history : list MoodEntry) (e : MoodEntry)
      (model : Request -> Outcome) :
  getRecommendations (history ++ [e]) model
  = (match model (recommendationsRequest (mood e)) with
     | Parsed parsed =>
         JObj (set "forMood" (JStr (Mood_to_string (mood e))) (spread parsed))
     | Rejected | NoText | Malformed => recommendationsFallback (mood e)
     end,
     [recommendationsRequest (mood e)]).
Proof.
  unfold getRecommendations. rewrite latestMood_last, length_app.
  cbn [List.length].
  replace (List.length history + 1 =? 0)%nat with false
    by (symmetry; apply Nat.eqb_neq; lia).
  unfold bind, generateContent.
  destruct (model (recommendationsRequest (mood e))); reflexivity.
Qed.

(** C7.  On the empty history [getRecommendations] returns the literal
    default bundle, whose [forMood] is [Neutral], and sends no request to
    the remote model, whatever that model would have answered. *)
Theorem getRecommendations_empty_history :
  forall model : Request -> Outcome,
    result_of (getRecommendations []) model = defaultRecommendations
    /\ requests_of (getRecommendations []) model = []
    /\ get defaultRecommendations "forMood" = Some (JStr (Mood_to_string Neutral))
    /\ defaultRecommendations
       = JObj [("forMood", JStr "Neutral");
               ("breathing",
                 JArr [JStr "Take 5 deep breaths.";
                       JStr "Try box breathing: inhale 4s, hold 4s, exhale 4s, hold 4s.";
                       JStr "Focus on your breath for one minute."]);
               ("journaling",
                 JArr [JStr "What is one thing you are grateful for today?";
                       JStr "Describe a small moment of joy you experienced.";
                       JStr "What is something you can let go of?"]);
               ("music",
                 JArr [JObj [("title", JStr "Acoustic Calm");
                             ("description", JStr "Gentle instrumental guitar to soothe your mind.")];
                       JObj [("title", JStr "Lofi Beats");
                             ("description", JStr "Relaxing hip hop beats for focus and chill.")]]);
               ("videos",
                 JArr [JObj [("title", JStr "5-Minute Guided Meditation for Beginners");
                             ("type", JStr "Meditation")];
                       JObj [("title", JStr "Peaceful Forest Stream Sounds");
                             ("type", JStr "Meditation")]])].
Proof. intro model. repeat split. Qed.




(** ** The classification adapter *)

Lemma analyzeTextMood_unfold (text : string) (model : Request -> Outcome) :
  analyzeTextMood text model
  = (match model (textRequest text) with
     | Parsed resultJson => resultJson
     | Rejected | NoText | Malformed => textFallback
     end, [textRequest text]).
Proof.
  unfold analyzeTextMood, bind, generateContent.
  destruct (model (textRequest text)); reflexivity.
Qed.

Lemma stringIn_moodNames (v : option value) :
  stringIn moodNames v = true -> exists m, v = Some (JStr (Mood_to_string m)).
Proof.
  destruct v as [[| | |s| |]|]; cbn [stringIn]; try discriminate.
  intro H. apply existsb_exists in H. destruct H as [name [Hin Heq]].
  apply String.eqb_eq in Heq. subst name.
  unfold moodNames in Hin. apply in_map_iff in Hin.
  destruct Hin as [m [Hm _]]. exists m. rewrite Hm. reflexivity.
Qed.

(** C3, as the code has it.  [analyzeTextMood] is total: for every text
    and every behaviour of the remote model it sends one request and
    returns a value.  When the call rejects, the response has no text, or
    the text is not JSON, the value is the literal fallback, whose mood
    [Neutral] is in the enumeration and whose emoji is not empty.  When
    the text parses, the parsed value is returned as it is: its mood is in
    the enumeration when the response satisfies the schema, and nothing is
    ensured about its emoji. *)
Theorem analyzeTextMood_degrades :
  forall (text : string) (model : Request -> Outcome),
    let result := result_of (analyzeTextMood text) model in
    let out := model (textRequest text) in
    requests_of (analyzeTextMood text) model = [textRequest text]
    /\ (isParsed out = false -> result = textFallback)
    /\ textFallback = JObj [("mood", JStr "Neutral"); ("emoji", JStr "😐");
                            ("notes", JStr "Could not analyze mood.")]
    /\ get textFallback "mood" = Some (JStr (Mood_to_string Neutral))
    /\ truthy_opt (get textFallback "emoji") = true
    /\ (forall resultJson, out = Parsed resultJson ->
        result = resultJson
        /\ (textMoodSchemaOk resultJson = true ->
            exists m, get result "mood" = Some (JStr (Mood_to_string m)))).
Proof.
  intros text model result out. subst result out.
  unfold result_of, requests_of. rewrite analyzeTextMood_unfold. cbn [fst snd].
  repeat split.
  - intro Hfail. destruct (model (textRequest text)); try reflexivity; discriminate Hfail.
  - rewrite H. reflexivity.
  - intro Hok. rewrite H. unfold textMoodSchemaOk in Hok.
    apply andb_prop in Hok. destruct Hok as [Hok _].
    apply andb_prop in Hok. destruct Hok as [_ Hmood].
    apply stringIn_moodNames. exact Hmood.
Qed.

Lemma analyzeTextMood_degrades_witness :
  result_of (analyzeTextMood "I feel fine") (fun _ => Malformed) = textFallback.
Proof.
  exact (proj1 (proj2 (analyzeTextMood_degrades "I feel fine" (fun _ => Malformed))) eq_refl).
Defined.

(** C3, as the claim states it, fails: a response that satisfies the
    schema may carry the empty string as its emoji, and [analyzeTextMood]
    returns it unchanged; a parsed response without a mood is returned as
    well, not replaced by the fallback. *)
Lemma analyzeTextMood_returns_empty_emoji :
  let model := fun _ : Request => Parsed emptyEmojiReply in
  let result := result_of (analyzeTextMood "What a day") model in
  textMoodSchemaOk emptyEmojiReply = true
  /\ get result "emoji" = Some (JStr "")
  /\ truthy_opt (get result "emoji") = false
  /\ failed textMoodSchemaOk (Parsed (JObj [])) = true
  /\ result_of (analyzeTextMood "What a day") (fun _ => Parsed (JObj [])) <> textFallback
  /\ get (result_of (analyzeTextMood "What a day") (fun _ => Parsed (JObj []))) "mood" = None.
Proof.
  cbv zeta. repeat split; try reflexivity. intro H; discriminate H.
Qed.

Lemma analyzeImageMood_unfold (base64Image : string) (model : Request -> Outcome) :
  analyzeImageMood base64Image model
  = (match model (imageRequest base64Image) with
     | Parsed resultJson =>
         match imageResult resultJson with
         | Some r => r
         | None => imageFallback
         end
     | Rejected | NoText | Malformed => imageFallback
     end, [imageRequest base64Image]).
Proof.
  unfold analyzeImageMood, bind, generateContent.
  destruct (model (imageRequest base64Image)) as [ | | |j]; try reflexivity.
  destruct (imageResult j); reflexivity.
Qed.





(** ** The session *)

Section Session.

Import App.

Variable toISOString : Z -> string.

Lemma moodHistory_step (st : AppState) (a : Action) :
  moodHistory (step toISOString st a) = moodHistory st ++ added toISOString a.
Proof.
  unfold step. destruct a; cbn [calls added].
  - cbn. symmetry; apply app_nil_r.
  - cbn. symmetry; apply app_nil_r.
  - unfold addMoodEntry. destruct (isHighDistress _); reflexivity.
  - cbn. symmetry; apply app_nil_r.
  - unfold initializeChat. destruct (chatSessionRef st); cbn; symmetry; apply app_nil_r.
  - unfold sendMessage. destruct (chatSessionRef st); cbn; symmetry; apply app_nil_r.
Qed.

Lemma moodHistory_run (st : AppState) (actions : list Action) :
  moodHistory (run toISOString st actions)
  = moodHistory st ++ entriesAdded toISOString actions.
Proof.
  revert st. induction actions as [|a actions IH]; intro st.
  - cbn. symmetry; apply app_nil_r.
  - cbn [run fold_left]. change (fold_left (step toISOString) actions ?s)
      with (run toISOString s actions).
    rewrite IH, moodHistory_step. unfold entriesAdded. cbn [flat_map].
    rewrite app_assoc. reflexivity.
Qed.

Lemma highDistressAlert_step (st : AppState) (a : Action) :
  highDistressAlert (step toISOString st a)
  = match a with
    | DoDismiss => false
    | DoAddMoodEntry entry _ _ => isHighDistress (in_mood entry) || highDistressAlert st
    | _ => highDistressAlert st
    end.
Proof.
  unfold step. destruct a; cbn [calls]; try reflexivity.
  - unfold addMoodEntry. cbn [newEntry mood].
    destruct (isHighDistress (in_mood entry)); reflexivity.
  - unfold initializeChat. destruct (chatSessionRef st); reflexivity.
  - unfold sendMessage. destruct (chatSessionRef st); reflexivity.
Qed.

Lemma highDistressAlert_run (st : AppState) (actions : list Action) :
  highDistressAlert st = true ->
  forallb (fun a => negb (isDismiss a)) actions = true ->
  highDistressAlert (run toISOString st actions) = true.
Proof.
  revert st. induction actions as [|a actions IH]; intros st Hst Hno.
  - exact Hst.
  - cbn [forallb] in Hno. apply andb_prop in Hno. destruct Hno as [Ha Hno].
    cbn [run fold_left]. apply IH; [|exact Hno].
    rewrite highDistressAlert_step.
    destruct a; try exact Hst; try discriminate Ha.
    rewrite Hst. apply orb_true_r.
Qed.

Lemma chatSessionRef_step (st : AppState) (a : Action) :
  isInitializeChat a = false ->
  chatSessionRef (step toISOString st a) = chatSessionRef st.
Proof.
  intro Ha. unfold step. destruct a; cbn [calls]; try reflexivity; try discriminate Ha.
  - unfold addMoodEntry. destruct (isHighDistress _); reflexivity.
  - unfold sendMessage. destruct (chatSessionRef st) eqn:E; cbn [fst];
      unfold applyAll; cbn [fold_left apply chatSessionRef]; exact E.
Qed.

Lemma chatSessionRef_run (st : AppState) (actions : list Action) :
  forallb (fun a => negb (isInitializeChat a)) actions = true ->
  chatSessionRef (run toISOString st actions) = chatSessionRef st.
Proof.
  revert st. induction actions as [|a actions IH]; intros st Hno.
  - reflexivity.
  - cbn [forallb] in Hno. apply andb_prop in Hno. destruct Hno as [Ha Hno].
    cbn [run fold_left]. change (fold_left (step toISOString) actions ?s)
      with (run toISOString s actions).
    rewrite IH by exact Hno. apply chatSessionRef_step.
    apply negb_true_iff. exact Ha.
Qed.

End Session.

Lemma no_dismiss_forallb (actions : list App.Action) :
  ~ In App.DoDismiss actions ->
  forallb (fun a => negb (App.isDismiss a)) actions = true.
Proof.
  induction actions as [|a actions IH]; intro Hno.
  - reflexivity.
  - cbn [forallb]. rewrite IH by (intro H; apply Hno; right; exact H).
    destruct a; try reflexivity. exfalso. apply Hno. left. reflexivity.
Qed.

Lemma no_initializeChat_forallb (actions : list App.Action) :
  ~ In App.DoInitializeChat actions ->
  forallb (fun a => negb (App.isInitializeChat a)) actions = true.
Proof.
  induction actions as [|a actions IH]; intro Hno.
  - reflexivity.
  - cbn [forallb]. rewrite IH by (intro H; apply Hno; right; exact H).
    destruct a; try reflexivity. exfalso. apply Hno. left. reflexivity.
Qed.

(** C6.  The test of [addMoodEntry] holds for [Sad], [Angry] and
    [Anxious] and for none of the other six moods.  An added entry that
    passes it sets the alert; from then on the alert stays set through
    every run of session operations that does not contain the dismiss
    action, in particular through every further [addMoodEntry], whatever
    its mood; a step that clears a set alert is the dismiss action, and the
    dismiss action clears it. *)
Theorem distress_alert_latches :
  forall (toISOString : Z -> string) (st0 : App.AppState)
         (entry : MoodEntryInput) (idNow dateNow : Z) (actions : list App.Action),
    App.isHighDistress (in_mood entry) = true ->
    ~ In App.DoDismiss actions ->
    let st := App.step toISOString st0 (App.DoAddMoodEntry entry idNow dateNow) in
    (forall m, App.isHighDistress m = true <-> (m = Sad \/ m = Angry \/ m = Anxious))
    /\ map App.isHighDistress all_moods
       = [false; true; false; true; false; false; false; true; false]
    /\ App.highDistressAlert st = true
    /\ App.highDistressAlert (App.run toISOString st actions) = true
    /\ (forall st' entry' idNow' dateNow',
         App.highDistressAlert st' = true ->
         App.highDistressAlert
           (App.step toISOString st' (App.DoAddMoodEntry entry' idNow' dateNow')) = true)
    /\ (forall st' a,
         App.highDistressAlert st' = true ->
         App.highDistressAlert (App.step toISOString st' a) = false ->
         a = App.DoDismiss)
    /\ App.highDistressAlert
         (App.step toISOString (App.run toISOString st actions) App.DoDismiss) = false.
Proof.
  intros toISOString st0 entry idNow dateNow actions Hd Hno st.
  assert (Hst : App.highDistressAlert st = true).
  { subst st. rewrite highDistressAlert_step, Hd. reflexivity. }
  split; [|split; [reflexivity|split; [exact Hst|split; [|split; [|split]]]]].
  - intro m. split.
    + destruct m; intro H; try discriminate H; auto.
    + intros [->|[->| ->]]; reflexivity.
  - apply highDistressAlert_run; [exact Hst | apply no_dismiss_forallb; exact Hno].
  - intros st' entry' idNow' dateNow' H. rewrite highDistressAlert_step, H.
    apply orb_true_r.
  - intros st' a H1 H2. rewrite highDistressAlert_step in H2.
    destruct a; try reflexivity; try congruence.
    rewrite H1, orb_true_r in H2. discriminate H2.
  - rewrite highDistressAlert_step. reflexivity.
Qed.

Lemma distress_alert_latches_witness :
  App.highDistressAlert
    (App.run isoStub
       (App.step isoStub App.initialState (App.DoAddMoodEntry sadInput 1000 1000))
       [App.DoNavigate Home; App.DoAddMoodEntry calmInput 2000 2000]) = true.
Proof.
  refine (proj1 (proj2 (proj2 (proj2
            (distress_alert_latches isoStub App.initialState sadInput 1000 1000
               [App.DoNavigate Home; App.DoAddMoodEntry calmInput 2000 2000]
               eq_refl _))))).
  intros [H|[H|[]]]; discriminate H.
Defined.

(** C8, as the code has it.  Every session operation leaves the recorded
    entries in place: [addMoodEntry] puts exactly one new entry after
    them, every other operation leaves the history as it is, and after any
    run the history is the earlier history followed by the entries added,
    in order.  The [date] of an entry is the clock reading taken when it is
    added, so the dates are non-decreasing in insertion order when those
    readings are. *)
Theorem moodHistory_append_only :
  forall (toISOString : Z -> string) (st : App.AppState) (actions : list App.Action),
    Sorted Z.le (App.dateReadings toISOString actions) ->
    (forall entry idNow dateNow,
        App.moodHistory (App.step toISOString st (App.DoAddMoodEntry entry idNow dateNow))
        = App.moodHistory st ++ [App.newEntry toISOString entry idNow dateNow])
    /\ (forall a, App.added toISOString a = [] ->
                  App.moodHistory (App.step toISOString st a) = App.moodHistory st)
    /\ (forall a, exists more,
           App.moodHistory (App.step toISOString st a) = App.moodHistory st ++ more
           /\ (List.length more <= 1)%nat)
    /\ App.moodHistory (App.run toISOString st actions)
       = App.moodHistory st ++ App.entriesAdded toISOString actions
    /\ map date (App.moodHistory (App.run toISOString App.initialState actions))
       = App.dateReadings toISOString actions
    /\ Sorted Z.le (map date (App.moodHistory (App.run toISOString App.initialState actions))).
Proof.
  intros toISOString st actions Hclock.
  assert (Hdates : map date (App.moodHistory (App.run toISOString App.initialState actions))
                   = App.dateReadings toISOString actions).
  { rewrite moodHistory_run. reflexivity. }
  split; [|split; [|split; [|split; [|split]]]].
  - intros entry idNow dateNow. rewrite moodHistory_step. reflexivity.
  - intros a Ha. rewrite moodHistory_step, Ha. apply app_nil_r.
  - intro a. exists (App.added toISOString a). split.
    + apply moodHistory_step.
    + destruct a; cbn; lia.
  - apply moodHistory_run.
  - exact Hdates.
  - rewrite Hdates. exact Hclock.
Qed.

Lemma moodHistory_append_only_witness :
  Sorted Z.le
    (map date
       (App.moodHistory
          (App.run isoStub App.initialState
             [App.DoAddMoodEntry sadInput 1000 1000; App.DoDismiss;
              App.DoAddMoodEntry calmInput 2000 2000]))).
Proof.
  refine (proj2 (proj2 (proj2 (proj2 (proj2
            (moodHistory_append_only isoStub App.initialState
               [App.DoAddMoodEntry sadInput 1000 1000; App.DoDismiss;
                App.DoAddMoodEntry calmInput 2000 2000] _)))))).
  repeat constructor. vm_compute. discriminate.
Defined.

(** C8, as the claim states it, fails on the dates: the code stamps an
    entry with the wall clock and compares it with nothing, so a clock set
    back between two additions leaves a later entry with an earlier date. *)
Lemma moodHistory_dates_follow_the_clock :
  let history :=
    App.moodHistory
      (App.run isoStub App.initialState
         [App.DoAddMoodEntry sadInput 2000 2000; App.DoAddMoodEntry calmInput 1000 1000]) in
  map date history = [2000; 1000]%Z
  /\ ~ Sorted Z.le (map date history).
Proof.
  cbv zeta. split; [reflexivity|].
  intro H. change (Sorted Z.le [2000; 1000]%Z) in H.
  inversion H as [|x l _ Hhd]; subst. inversion Hhd as [|y l' Hle]; subst.
  vm_compute in Hle. apply Hle. reflexivity.
Qed.

(** C10.  While [initializeChat] has not run, [sendMessage] does
    nothing, for every message: it calls no state setter, so that no user
    message and no assistant message reaches [chatHistory] and the typing
    indicator is not set, it hands nothing to the chat session, and the
    state after the operation is the state before it. *)
Theorem sendMessage_without_session :
  forall (toISOString : Z -> string) (actions : list App.Action)
         (message : string) (userNow : Z) (reply : App.ChatOutcome) (aiNow : Z),
    ~ In App.DoInitializeChat actions ->
    let st := App.run toISOString App.initialState actions in
    App.chatSessionRef st = None
    /\ App.sendMessage st message userNow reply aiNow = ([], [])
    /\ App.step toISOString st (App.DoSendMessage message userNow reply aiNow) = st
    /\ App.chatHistory st = []
    /\ App.isAiTyping st = false.
Proof.
  intros toISOString actions message userNow reply aiNow Hno st.
  assert (Href : App.chatSessionRef st = None).
  { subst st. rewrite chatSessionRef_run by (apply no_initializeChat_forallb; exact Hno).
    reflexivity. }
  assert (Hsend : forall m u r a, App.sendMessage st m u r a = ([], [])).
  { intros. unfold App.sendMessage. rewrite Href. reflexivity. }
  split; [exact Href|]. split; [apply Hsend|]. split.
  - unfold App.step. cbn [App.calls]. rewrite Hsend. reflexivity.
  - subst st. clear Href Hsend.
    assert (Hinv : forall s, App.chatSessionRef s = None ->
                             App.chatHistory s = [] -> App.isAiTyping s = false ->
                             App.chatHistory (App.run toISOString s actions) = []
                             /\ App.isAiTyping (App.run toISOString s actions) = false).
    { induction actions as [|a actions IH]; intros s Hs Hh Ht.
      - split; assumption.
      - cbn [App.run fold_left].
        assert (Ha : a <> App.DoInitializeChat) by (intro E; apply Hno; left; exact E).
        assert (Hrest : ~ In App.DoInitializeChat actions)
          by (intro E; apply Hno; right; exact E).
        apply (IH Hrest).
        + rewrite chatSessionRef_step; [exact Hs|]. destruct a; try reflexivity. congruence.
        + unfold App.step. destruct a; cbn [App.calls]; try exact Hh.
          * unfold App.addMoodEntry. destruct (App.isHighDistress _); exact Hh.
          * congruence.
          * unfold App.sendMessage. rewrite Hs. exact Hh.
        + unfold App.step. destruct a; cbn [App.calls]; try exact Ht.
          * unfold App.addMoodEntry. destruct (App.isHighDistress _); exact Ht.
          * congruence.
          * unfold App.sendMessage. rewrite Hs. exact Ht. }
    apply Hinv; reflexivity.
Qed.

Lemma sendMessage_without_session_witness :
  App.sendMessage
    (App.run isoStub App.initialState
       [App.DoNavigate SupportChat; App.DoAddMoodEntry calmInput 1000 1000])
    "I'm feeling anxious" 3000 (App.ChatText "Take a slow breath.") 4000
  = ([], []).
Proof.
  refine (proj1 (proj2
            (sendMessage_without_session isoStub
               [App.DoNavigate SupportChat; App.DoAddMoodEntry calmInput 1000 1000]
               "I'm feeling anxious" 3000 (App.ChatText "Take a slow breath.") 4000 _))).
  intros [H|[H|[]]]; discriminate H.
Defined.

(** ** Number arithmetic *)

Section NumberFacts.

Local Open Scope Z_scope.

Lemma rne_div_near (a b : Z) : 0 < b -> 2 * Z.abs (Number.rne_div a b * b - a) <= b.
Proof.
  intro Hb. unfold Number.rne_div.
  pose proof (Z.div_mod a b ltac:(lia)) as Hdm.
  pose proof (Z.mod_pos_bound a b Hb) as Hr.
  set (q := a / b) in *. set (r := a mod b) in *.
  destruct (Z.ltb_spec (2 * r) b); [lia|].
  destruct (Z.ltb_spec b (2 * r)); [lia|].
  destruct (Z.even q); lia.
Qed.

Lemma rne_div_le (a b M : Z) : 0 < b -> a <= M * b -> Number.rne_div a b <= M.
Proof.
  intros Hb Ha. pose proof (rne_div_near a b Hb) as H.
  set (m := Number.rne_div a b) in *.
  assert (2 * (m * b - a) <= b) by lia.
  assert (2 * m * b <= (2 * M + 1) * b) by lia.
  assert (2 * m <= 2 * M + 1). { apply Z.mul_le_mono_pos_r with b; lia. }
  lia.
Qed.

Lemma rne_div_ge (a b M : Z) : 0 < b -> M * b <= a -> M <= Number.rne_div a b.
Proof.
  intros Hb Ha. pose proof (rne_div_near a b Hb) as H.
  set (m := Number.rne_div a b) in *.
  assert (2 * (a - m * b) <= b) by lia.
  assert ((2 * M - 1) * b <= 2 * m * b) by lia.
  assert (2 * M - 1 <= 2 * m). { apply Z.mul_le_mono_pos_r with b; lia. }
  lia.
Qed.

Lemma binade_le (n d : Z) : Number.binade n d <= Z.log2 n - Z.log2 d.
Proof. unfold Number.binade. destruct (_ <=? _); lia. Qed.

Lemma binade_ge (n d : Z) : Z.log2 n - Z.log2 d - 1 <= Number.binade n d.
Proof. unfold Number.binade. destruct (_ <=? _); lia. Qed.

(** [binade n d] is the integer part of the binary logarithm of
    [n / d], and [round n d] is within half a unit in the last place of
    [n / d], with a significand of 53 bits. *)
Lemma binade_spec (n d : Z) :
  0 < n -> 0 < d ->
  let E := Number.binade n d in
  d * 2 ^ Z.max 0 E <= n * 2 ^ Z.max 0 (- E) < 2 * (d * 2 ^ Z.max 0 E).
Proof.
  intros Hn Hd E. subst E. unfold Number.binade.
  destruct (Z.log2_spec n Hn) as [Hn1 Hn2]. destruct (Z.log2_spec d Hd) as [Hd1 Hd2].
  pose proof (Z.log2_nonneg n) as Hl. pose proof (Z.log2_nonneg d) as Hl'.
  rewrite Z.pow_succ_r in Hn2, Hd2 by assumption.
  set (l := Z.log2 n) in *. set (l' := Z.log2 d) in *.
  assert (Hp : 0 < 2 ^ l) by (apply Z.pow_pos_nonneg; lia).
  assert (Hp' : 0 < 2 ^ l') by (apply Z.pow_pos_nonneg; lia).
  destruct (Z.leb_spec (d * 2 ^ l) (n * 2 ^ l')) as [Ht|Ht].
  - destruct (Z.le_gt_cases 0 (l - l')) as [Hs|Hs].
    + rewrite Z.max_r, Z.max_l by lia. rewrite Z.pow_0_r, Z.mul_1_r.
      assert (Hsplit : 2 ^ l = 2 ^ l' * 2 ^ (l - l')).
      { rewrite <- Z.pow_add_r by lia. f_equal. lia. }
      assert (Hq : 0 < 2 ^ (l - l')) by (apply Z.pow_pos_nonneg; lia).
      set (q := 2 ^ (l - l')) in *. clearbody q. rewrite Hsplit in *. clear Hsplit.
      split.
      * apply Z.mul_le_mono_pos_r with (2 ^ l'); [lia|]. lia.
      * assert (2 ^ l' * q <= d * q) by (apply Z.mul_le_mono_nonneg_r; lia). lia.
    + rewrite Z.max_l, Z.max_r by lia. rewrite Z.pow_0_r, Z.mul_1_r.
      replace (- (l - l')) with (l' - l) by lia.
      assert (Hsplit : 2 ^ l' = 2 ^ l * 2 ^ (l' - l)).
      { rewrite <- Z.pow_add_r by lia. f_equal. lia. }
      assert (Hq : 0 < 2 ^ (l' - l)) by (apply Z.pow_pos_nonneg; lia).
      set (q := 2 ^ (l' - l)) in *. clearbody q. rewrite Hsplit in *. clear Hsplit.
      split.
      * apply Z.mul_le_mono_pos_r with (2 ^ l); [lia|]. lia.
      * assert (n * q < 2 * 2 ^ l * q) by (apply Z.mul_lt_mono_pos_r; lia). lia.
  - destruct (Z.le_gt_cases 0 (l - l' - 1)) as [Hs|Hs].
    + rewrite Z.max_r, Z.max_l by lia. rewrite Z.pow_0_r, Z.mul_1_r.
      assert (Hsplit : 2 ^ l = 2 * (2 ^ l' * 2 ^ (l - l' - 1))).
      { rewrite <- Z.pow_add_r by lia. rewrite <- Z.pow_succ_r by lia. f_equal. lia. }
      assert (Hq : 0 < 2 ^ (l - l' - 1)) by (apply Z.pow_pos_nonneg; lia).
      set (q := 2 ^ (l - l' - 1)) in *. clearbody q. rewrite Hsplit in *. clear Hsplit.
      split.
      * assert (d * q < 2 * 2 ^ l' * q) by (apply Z.mul_lt_mono_pos_r; lia). lia.
      * apply Z.mul_lt_mono_pos_r with (2 ^ l'); [lia|]. lia.
    + rewrite Z.max_l, Z.max_r by lia. rewrite Z.pow_0_r, Z.mul_1_r.
      replace (- (l - l' - 1)) with (Z.succ (l' - l)) by lia.
      rewrite Z.pow_succ_r by lia.
      assert (Hsplit : 2 ^ l' = 2 ^ l * 2 ^ (l' - l)).
      { rewrite <- Z.pow_add_r by lia. f_equal. lia. }
      assert (Hq : 0 < 2 ^ (l' - l)) by (apply Z.pow_pos_nonneg; lia).
      set (q := 2 ^ (l' - l)) in *. clearbody q. rewrite Hsplit in *. clear Hsplit.
      split.
      * assert (2 ^ l * q <= n * q) by (apply Z.mul_le_mono_nonneg_r; lia). lia.
      * assert (n * q < d) by (apply Z.mul_lt_mono_pos_r with (2 ^ l); lia). lia.
Qed.

Lemma round_spec (n d : Z) :
  0 < n -> 0 < d ->
  let m := fst (Number.round n d) in
  let e := snd (Number.round n d) in
  2 ^ 52 <= m <= 2 ^ 53
  /\ 2 * Z.abs (m * (d * 2 ^ Z.max 0 e) - n * 2 ^ Z.max 0 (- e)) <= d * 2 ^ Z.max 0 e.
Proof.
  intros Hn Hd. pose proof (binade_spec n d Hn Hd) as HE. cbv zeta in HE.
  unfold Number.round. destruct (Z.leb_spec n 0); [lia|].
  set (E := Number.binade n d) in *. clearbody E.
  destruct (Z.ltb_spec (E - 52) 0) as [He|He]; cbn [fst snd].
  - rewrite Z.max_l, Z.max_r by lia. rewrite Z.pow_0_r, Z.mul_1_r.
    assert (Hscaled : 2 ^ 52 * d <= n * 2 ^ (- (E - 52)) < 2 ^ 53 * d).
    { destruct (Z.le_gt_cases 0 E) as [Hs|Hs].
      - rewrite Z.max_r, Z.max_l in HE by lia. rewrite Z.pow_0_r, Z.mul_1_r in HE.
        assert (Hsplit : 2 ^ 52 = 2 ^ E * 2 ^ (- (E - 52))).
        { rewrite <- Z.pow_add_r by lia. f_equal. lia. }
        change (2 ^ 53) with (2 * 2 ^ 52). rewrite Hsplit.
        assert (0 < 2 ^ (- (E - 52))) by (apply Z.pow_pos_nonneg; lia).
        set (q := 2 ^ (- (E - 52))) in *. clearbody q.
        split.
        + replace (2 ^ E * q * d) with (d * 2 ^ E * q) by ring.
          apply Z.mul_le_mono_nonneg_r; lia.
        + replace (2 * (2 ^ E * q) * d) with (2 * (d * 2 ^ E) * q) by ring.
          apply Z.mul_lt_mono_pos_r; lia.
      - rewrite Z.max_l, Z.max_r in HE by lia. rewrite Z.pow_0_r, Z.mul_1_r in HE.
        replace (- (E - 52)) with (- E + 52) by lia.
        rewrite Z.pow_add_r by lia. change (2 ^ 53) with (2 * 2 ^ 52).
        set (q := 2 ^ (- E)) in *. clearbody q.
        change (2 ^ 52) with 4503599627370496. lia. }
    split.
    + split; [apply rne_div_ge | apply rne_div_le]; lia.
    + apply rne_div_near. exact Hd.
  - rewrite Z.max_r, Z.max_l by lia. rewrite Z.pow_0_r, Z.mul_1_r.
    rewrite Z.max_r, Z.max_l in HE by lia. rewrite Z.pow_0_r, Z.mul_1_r in HE.
    assert (Hsplit : 2 ^ E = 2 ^ 52 * 2 ^ (E - 52)).
    { rewrite <- Z.pow_add_r by lia. f_equal. lia. }
    rewrite Hsplit in HE.
    assert (Hq : 0 < 2 ^ (E - 52)) by (apply Z.pow_pos_nonneg; lia).
    set (q := 2 ^ (E - 52)) in *. clearbody q.
    assert (Hdq : 0 < d * q) by (apply Z.mul_pos_pos; lia).
    change (2 ^ 53) with (2 * 2 ^ 52).
    split.
    + split; [apply rne_div_ge | apply rne_div_le]; lia.
    + apply rne_div_near. exact Hdq.
Qed.

Lemma percentage_shape (c t : Z) :
  1 <= c <= t ->
  exists m1 k1 m2 k2,
    52 <= k1 /\ 46 <= k2
    /\ 1 <= m1 <= 2 ^ k1
    /\ 2 * Z.abs (m1 * t - c * 2 ^ k1) <= t
    /\ 2 * Z.abs (m2 * 2 ^ k1 - 100 * m1 * 2 ^ k2) <= 2 ^ k1
    /\ Tracker.percentage c t = (2 * m2 + 2 ^ k2) / (2 * 2 ^ k2).
Proof.
  intros [Hc Hct].
  assert (Ht : 0 < t) by lia.
  pose proof (Z.log2_nonneg c) as Hlc0.
  pose proof (Z.log2_le_mono c t Hct) as Hlct.
  pose proof (binade_le c t) as Hb1.
  pose proof (binade_ge c t) as Hb1'.
  set (k1 := 52 - Number.binade c t).
  assert (Hk1 : 52 + Z.log2 t - Z.log2 c <= k1) by (subst k1; lia).
  assert (Hk1' : 52 <= k1) by lia.
  pose proof (Z.log2_spec c ltac:(lia)) as [Hc2 _].
  pose proof (Z.log2_spec t Ht) as [_ Ht2].
  assert (Hpow1 : 0 < 2 ^ k1) by (apply Z.pow_pos_nonneg; lia).
  assert (HcK : t <= c * 2 ^ k1).
  { assert (2 ^ (52 + Z.log2 t - Z.log2 c) <= 2 ^ k1) by (apply Z.pow_le_mono_r; lia).
    assert (2 ^ Z.log2 c * 2 ^ (52 + Z.log2 t - Z.log2 c) = 2 ^ (52 + Z.log2 t)).
    { rewrite <- Z.pow_add_r by lia. f_equal. lia. }
    assert (2 ^ Z.succ (Z.log2 t) <= 2 ^ (52 + Z.log2 t)) by (apply Z.pow_le_mono_r; lia).
    assert (0 < 2 ^ Z.log2 c) by (apply Z.pow_pos_nonneg; lia).
    nia. }
  set (m1 := Number.rne_div (c * 2 ^ k1) t).
  assert (Hm1lo : 1 <= m1) by (apply rne_div_ge; lia).
  assert (Hm1hi : m1 <= 2 ^ k1) by (apply rne_div_le; [lia | nia]).
  assert (Hdiv : Number.div c t = (m1, - k1)).
  { unfold Number.div, Number.round.
    destruct (Z.leb_spec c 0); [lia|].
    replace (Number.binade c t - 52) with (- k1) by (subst k1; lia).
    destruct (Z.ltb_spec (- k1) 0); [|lia].
    rewrite Z.opp_involutive. reflexivity. }
  pose proof (binade_le (m1 * 100) (2 ^ k1)) as Hb2.
  rewrite Z.log2_pow2 in Hb2 by lia.
  assert (Hl2 : Z.log2 (m1 * 100) < k1 + 7).
  { apply Z.log2_lt_pow2; [lia|].
    rewrite Z.pow_add_r by lia. change (2 ^ 7) with 128. nia. }
  set (k2 := 52 - Number.binade (m1 * 100) (2 ^ k1)).
  assert (Hk2 : 46 <= k2) by (subst k2; lia).
  set (m2 := Number.rne_div (m1 * 100 * 2 ^ k2) (2 ^ k1)).
  assert (Hmul : Number.mul (m1, - k1) 100 = (m2, - k2)).
  { unfold Number.mul.
    destruct (Z.ltb_spec (- k1) 0); [|lia].
    rewrite Z.opp_involutive. unfold Number.round.
    destruct (Z.leb_spec (m1 * 100) 0); [lia|].
    replace (Number.binade (m1 * 100) (2 ^ k1) - 52) with (- k2) by (subst k2; lia).
    destruct (Z.ltb_spec (- k2) 0); [|lia].
    rewrite Z.opp_involutive. reflexivity. }
  exists m1, k1, m2, k2.
  split; [exact Hk1'|]. split; [exact Hk2|]. split; [lia|].
  split; [apply rne_div_near; lia|].
  split.
  { replace (100 * m1 * 2 ^ k2) with (m1 * 100 * 2 ^ k2) by ring.
    apply rne_div_near; lia. }
  unfold Tracker.percentage. rewrite Hdiv, Hmul. unfold Number.Math_round.
  destruct (Z.ltb_spec (- k2) 0); [|lia].
  rewrite Z.opp_involutive.
  replace (1 - - k2) with (Z.succ k2) by lia.
  rewrite Z.pow_succ_r by lia. reflexivity.
Qed.

Lemma percentage_bounds (c t : Z) : 1 <= c <= t -> 0 <= Tracker.percentage c t <= 100.
Proof.
  intro H. destruct (percentage_shape c t H) as (m1 & k1 & m2 & k2 & Hk1 & Hk2 & Hm1 & H1 & H2 & ->).
  assert (0 < 2 ^ k1) by (apply Z.pow_pos_nonneg; lia).
  assert (0 < 2 ^ k2) by (apply Z.pow_pos_nonneg; lia).
  set (K1 := 2 ^ k1) in *. set (K2 := 2 ^ k2) in *. clearbody K1 K2.
  assert (Hm2hi : m2 <= 100 * K2).
  { assert (m1 * K2 <= K1 * K2) by (apply Z.mul_le_mono_nonneg_r; lia).
    assert (2 * (m2 * K1) <= (2 * (100 * K2) + 1) * K1) by lia.
    assert (2 * m2 <= 2 * (100 * K2) + 1).
    { apply Z.mul_le_mono_pos_r with K1; lia. }
    lia. }
  assert (Hm2lo : 0 <= m2).
  { assert (0 <= m1 * K2) by (apply Z.mul_nonneg_nonneg; lia).
    assert (0 <= 100 * m1 * K2) by lia.
    assert ((2 * 0 - 1) * K1 <= 2 * m2 * K1) by lia.
    assert (2 * 0 - 1 <= 2 * m2). { apply Z.mul_le_mono_pos_r with K1; lia. }
    lia. }
  split.
  - apply Z.div_pos; lia.
  - apply Z.lt_succ_r. apply Z.div_lt_upper_bound; lia.
Qed.


Lemma percentage_nearest (c t : Z) :
  1 <= c <= t -> t < 2 ^ 32 ->
  2 * Z.abs (Tracker.percentage c t * t - 100 * c) <= t.
Proof.
  intros H Ht. destruct (percentage_shape c t H) as (m1 & k1 & m2 & k2 & Hk1 & Hk2 & Hm1 & H1 & H2 & ->).
  assert (HK1 : 2 ^ 52 <= 2 ^ k1) by (apply Z.pow_le_mono_r; lia).
  assert (HK2 : 2 ^ 46 <= 2 ^ k2) by (apply Z.pow_le_mono_r; lia).
  set (K1 := 2 ^ k1) in *. set (K2 := 2 ^ k2) in *. clearbody K1 K2.
  change (2 ^ 52) with 4503599627370496 in HK1.
  change (2 ^ 46) with 70368744177664 in HK2.
  change (2 ^ 32) with 4294967296 in Ht.
  pose proof (Z.div_mod (2 * m2 + K2) (2 * K2) ltac:(lia)) as Hdm.
  pose proof (Z.mod_pos_bound (2 * m2 + K2) (2 * K2) ltac:(lia)) as Hr.
  set (p := (2 * m2 + K2) / (2 * K2)) in *.
  set (r := (2 * m2 + K2) mod (2 * K2)) in *. clearbody p r.
  set (A := m1 * t - c * K1) in *.
  set (B := m2 * K1 - 100 * m1 * K2) in *.
  set (G := p * t - 100 * c).
  assert (Hid : 2 * (K1 * K2) * G = K1 * t * (K2 - r) + 2 * B * t + 200 * A * K2).
  { subst G A B.
    replace (2 * (K1 * K2) * (p * t - 100 * c))
      with (K1 * t * (2 * K2 * p) - 200 * c * K1 * K2) by ring.
    replace (2 * K2 * p) with (2 * m2 + K2 - r) by lia. ring. }
  clearbody A B G. clear Hdm H Hm1 Hk1 Hk2.
  assert (HKt : 0 <= K1 * t) by (apply Z.mul_nonneg_nonneg; lia).
  assert (HKK : 0 < K1 * K2) by (apply Z.mul_pos_pos; lia).
  assert (Hx : Z.abs (K1 * t * (K2 - r)) <= K1 * t * K2).
  { rewrite Z.abs_mul, (Z.abs_eq (K1 * t)) by exact HKt.
    apply Z.mul_le_mono_nonneg_l; [exact HKt | lia]. }
  assert (Hy : Z.abs (2 * B * t) <= K1 * t).
  { rewrite Z.abs_mul, (Z.abs_eq t) by lia.
    apply Z.mul_le_mono_nonneg_r; lia. }
  assert (Hz : Z.abs (200 * A * K2) <= 100 * t * K2).
  { rewrite Z.abs_mul, (Z.abs_eq K2) by lia.
    apply Z.mul_le_mono_nonneg_r; lia. }
  assert (Hsum : Z.abs (2 * (K1 * K2) * G) <= K1 * t * K2 + K1 * t + 100 * t * K2).
  { rewrite Hid. 
    pose proof (Z.abs_triangle (K1 * t * (K2 - r) + 2 * B * t) (200 * A * K2)).
    pose proof (Z.abs_triangle (K1 * t * (K2 - r)) (2 * B * t)).
    lia. }
  assert (Habs : Z.abs (2 * (K1 * K2) * G) = 2 * (K1 * K2) * Z.abs G).
  { rewrite Z.abs_mul, (Z.abs_eq (2 * (K1 * K2))) by lia. reflexivity. }
  assert (Hs1 : K1 * (2 * t) < K1 * K2) by (apply Z.mul_lt_mono_pos_l; lia).
  assert (Hs2 : (200 * t) * K2 < K1 * K2) by (apply Z.mul_lt_mono_pos_r; lia).
  assert (Hlt : (K1 * K2) * (2 * Z.abs G) < (K1 * K2) * (t + 1)).
  { rewrite Habs in Hsum. clear - Hsum Hs1 Hs2.
    set (g := Z.abs G) in *. clearbody g.
    replace (K1 * K2 * (2 * g)) with (2 * (K1 * K2) * g) by ring.
    replace (K1 * K2 * (t + 1)) with (K1 * t * K2 + K1 * K2) by ring.
    replace (K1 * (2 * t)) with (2 * (K1 * t)) in Hs1 by ring.
    replace (200 * t * K2) with (2 * (100 * t * K2)) in Hs2 by ring.
    set (a := K1 * t * K2) in *. set (b := K1 * t) in *. set (d := 100 * t * K2) in *.
    set (e := K1 * K2) in *. set (f := 2 * e * g) in *. clearbody a b d e f. lia. }
  apply Z.mul_lt_mono_pos_l in Hlt; [lia | exact HKK].
Qed.

End NumberFacts.

(** ** The distribution *)

Section Distribution.

Import Tracker.

Local Open Scope Z_scope.

Section Records.
Context {V : Type}.

Lemma rec_get_set (m k : Mood) (v : V) (acc : list (Mood * V)) :
  rec_get m (rec_set k v acc) = if Mood_eqb m k then Some v else rec_get m acc.
Proof.
  induction acc as [|[k' v'] acc IH]; cbn [rec_set rec_get].
  - reflexivity.
  - destruct (Mood_eqb k k') eqn:Ekk'; cbn [rec_get].
    + apply Mood_eqb_eq in Ekk'. subst k'. destruct (Mood_eqb m k); reflexivity.
    + rewrite IH. destruct (Mood_eqb m k') eqn:Emk'; [|reflexivity].
      apply Mood_eqb_eq in Emk'. subst k'.
      rewrite Mood_eqb_sym, Ekk'. reflexivity.
Qed.

Lemma keys_rec_set (k : Mood) (v : V) (acc : list (Mood * V)) :
  map fst (rec_set k v acc)
  = if existsb (Mood_eqb k) (map fst acc) then map fst acc else map fst acc ++ [k].
Proof.
  induction acc as [|[k' v'] acc IH]; cbn [rec_set map fst existsb app].
  - reflexivity.
  - destruct (Mood_eqb k k') eqn:E; cbn [map fst orb].
    + apply Mood_eqb_eq in E. subst k'. reflexivity.
    + rewrite IH. destruct (existsb (Mood_eqb k) (map fst acc)); reflexivity.
Qed.

Lemma rec_get_None (m : Mood) (acc : list (Mood * V)) :
  rec_get m acc = None <-> existsb (Mood_eqb m) (map fst acc) = false.
Proof.
  induction acc as [|[k' v'] acc IH]; cbn [rec_get map fst existsb].
  - tauto.
  - destruct (Mood_eqb m k'); cbn [orb]; [split; discriminate | exact IH].
Qed.

Lemma existsb_Mood_In (m : Mood) (l : list Mood) :
  existsb (Mood_eqb m) l = true <-> In m l.
Proof.
  rewrite existsb_exists. split.
  - intros [x [Hin Heq]]. apply Mood_eqb_eq in Heq. subst x. exact Hin.
  - intro Hin. exists m. split; [exact Hin | apply Mood_eqb_refl].
Qed.

Lemma NoDup_keys_rec_set (k : Mood) (v : V) (acc : list (Mood * V)) :
  NoDup (map fst acc) -> NoDup (map fst (rec_set k v acc)).
Proof.
  intro H. rewrite keys_rec_set.
  destruct (existsb (Mood_eqb k) (map fst acc)) eqn:E; [exact H|].
  apply NoDup_app; [exact H | repeat constructor; intros [] | ].
  intros x Hx [Hk|[]]. subst x.
  apply existsb_Mood_In in Hx. congruence.
Qed.

Lemma rec_get_In (m : Mood) (v : V) (acc : list (Mood * V)) :
  rec_get m acc = Some v -> In (m, v) acc.
Proof.
  induction acc as [|[k' v'] acc IH]; cbn [rec_get]; [discriminate|].
  destruct (Mood_eqb m k') eqn:E.
  - apply Mood_eqb_eq in E. subst k'. intro H. injection H as ->. left. reflexivity.
  - intro H. right. apply IH. exact H.
Qed.

Lemma In_rec_get (m : Mood) (v : V) (acc : list (Mood * V)) :
  NoDup (map fst acc) -> In (m, v) acc -> rec_get m acc = Some v.
Proof.
  induction acc as [|[k' v'] acc IH]; cbn [rec_get map fst]; [intros _ []|].
  intros Hnd [Heq|Hin].
  - injection Heq as -> ->. rewrite Mood_eqb_refl. reflexivity.
  - inversion Hnd as [|x l Hnotin Hnd']; subst.
    destruct (Mood_eqb m k') eqn:E.
    + apply Mood_eqb_eq in E. subst k'. exfalso. apply Hnotin.
      apply in_map_iff. exists (m, v). split; [reflexivity | exact Hin].
    + apply IH; assumption.
Qed.

End Records.

Lemma or_num_opt_0 (x : option Z) : or_num_opt x 0 = valueOr0 x.
Proof.
  destruct x as [c|]; [|reflexivity]. cbn. unfold JS.or_num.
  destruct (Z.eqb_spec c 0); congruence.
Qed.

Lemma sum_rec_set (k : Mood) (v : Z) (acc : list (Mood * Z)) :
  fold_right Z.add 0 (map snd (rec_set k v acc))
  = fold_right Z.add 0 (map snd acc) - valueOr0 (rec_get k acc) + v.
Proof.
  induction acc as [|[k' v'] acc IH]; cbn [rec_set rec_get map snd fold_right valueOr0].
  - lia.
  - destruct (Mood_eqb k k'); cbn [map snd fold_right valueOr0].
    + lia.
    + rewrite IH. lia.
Qed.

Lemma occurrences_snoc (m : Mood) (seen : list MoodEntry) (e : MoodEntry) :
  occurrences m (seen ++ [e])
  = occurrences m seen + (if Mood_eqb (mood e) m then 1 else 0).
Proof.
  unfold occurrences. rewrite filter_app, length_app. cbn [filter].
  destruct (Mood_eqb (mood e) m); cbn [List.length]; lia.
Qed.

Lemma occurrences_nonneg (m : Mood) (data : list MoodEntry) : 0 <= occurrences m data.
Proof. unfold occurrences. lia. Qed.

Lemma occurrences_le_length (m : Mood) (data : list MoodEntry) :
  occurrences m data <= Z.of_nat (List.length data).
Proof.
  unfold occurrences. apply inj_le.
  induction data as [|e data IH]; cbn [filter List.length]; [lia|].
  destruct (Mood_eqb (mood e) m); cbn [List.length]; lia.
Qed.

Lemma occurrences_pos (m : Mood) (data : list MoodEntry) :
  0 < occurrences m data <-> exists e, In e data /\ mood e = m.
Proof.
  unfold occurrences. split.
  - intro H. destruct (filter (fun e => Mood_eqb (mood e) m) data) as [|e l] eqn:E.
    + cbn in H. lia.
    + assert (Hin : In e (filter (fun e => Mood_eqb (mood e) m) data)) by (rewrite E; left; reflexivity).
      apply filter_In in Hin. destruct Hin as [Hin Hm]. apply Mood_eqb_eq in Hm.
      exists e. split; assumption.
  - intros [e [Hin Hm]].
    assert (Hf : In e (filter (fun e => Mood_eqb (mood e) m) data)).
    { apply filter_In. split; [exact Hin | apply Mood_eqb_eq; exact Hm]. }
    destruct (filter (fun e => Mood_eqb (mood e) m) data); [destruct Hf | cbn [List.length]; lia].
Qed.

Lemma countsInv_step (acc : list (Mood * Z)) (seen : list MoodEntry) (e : MoodEntry) :
  countsInv acc seen -> countsInv (countStep acc e) (seen ++ [e]).
Proof.
  intros (Hnd & Hget & Hsum). unfold countStep.
  assert (Hold : valueOr0 (rec_get (mood e) acc) = occurrences (mood e) seen).
  { rewrite Hget. pose proof (occurrences_nonneg (mood e) seen).
    destruct (Z.ltb_spec 0 (occurrences (mood e) seen)); cbn [valueOr0]; lia. }
  rewrite or_num_opt_0, Hold.
  split; [apply NoDup_keys_rec_set; exact Hnd|]. split.
  - intro m. rewrite rec_get_set, occurrences_snoc.
    pose proof (occurrences_nonneg m seen).
    destruct (Mood_eqb m (mood e)) eqn:E.
    + apply Mood_eqb_eq in E. subst m. rewrite Mood_eqb_refl.
      destruct (Z.ltb_spec 0 (occurrences (mood e) seen + 1)); [reflexivity | lia].
    + rewrite Mood_eqb_sym, E, Z.add_0_r. apply Hget.
  - rewrite sum_rec_set, Hold, Hsum, length_app. cbn [List.length]. lia.
Qed.

Lemma countsInv_fold (data : list MoodEntry) :
  forall acc seen, countsInv acc seen ->
                   countsInv (fold_left countStep data acc) (seen ++ data).
Proof.
  induction data as [|e data IH]; intros acc seen H; cbn [fold_left].
  - rewrite app_nil_r. exact H.
  - replace (seen ++ e :: data) with ((seen ++ [e]) ++ data)
      by (rewrite <- app_assoc; reflexivity).
    apply IH. apply countsInv_step. exact H.
Qed.

Lemma counts_spec (data : list MoodEntry) : countsInv (counts data) data.
Proof.
  unfold counts. apply (countsInv_fold data [] []).
  split; [constructor|]. split; [|reflexivity].
  intro m. reflexivity.
Qed.






(** Sorting *)
Lemma insertStat_perm (x : Stat) (l : list Stat) : Permutation (insertStat x l) (x :: l).
Proof.
  induction l as [|y l IH]; cbn [insertStat].
  - reflexivity.
  - destruct (compareStats x y <=? 0); [reflexivity|].
    rewrite IH. apply perm_swap.
Qed.

Lemma sortStats_perm (l : list Stat) : Permutation (sortStats l) l.
Proof.
  induction l as [|x l IH]; cbn [sortStats fold_right]; [reflexivity|].
  fold (sortStats l). rewrite insertStat_perm, IH. reflexivity.
Qed.

Lemma insertStat_sorted (x : Stat) (l : list Stat) :
  Sorted byCountDescending l -> Sorted byCountDescending (insertStat x l).
Proof.
  induction l as [|y l IH]; intro Hs; cbn [insertStat].
  - repeat constructor.
  - unfold compareStats.
    destruct (Z.leb_spec (s_count y - s_count x) 0) as [Hle|Hgt].
    + constructor; [exact Hs|]. constructor. unfold byCountDescending. lia.
    + inversion Hs as [|y' l' Hs' Hhd]; subst.
      constructor; [apply IH; exact Hs'|].
      destruct l as [|z l]; cbn [insertStat].
      * constructor. unfold byCountDescending. lia.
      * unfold compareStats. destruct (s_count z - s_count x <=? 0).
        -- constructor. unfold byCountDescending. lia.
        -- inversion Hhd; subst. constructor. assumption.
Qed.

Lemma sortStats_sorted (l : list Stat) : Sorted byCountDescending (sortStats l).
Proof.
  induction l as [|x l IH]; cbn [sortStats fold_right]; [constructor|].
  apply insertStat_sorted. exact IH.
Qed.

Lemma since_window (cutoff : Z) (history : list MoodEntry) (e : MoodEntry) :
  In e (since cutoff history) <-> In e history /\ cutoff <= date e.
Proof.
  unfold since. rewrite filter_In. rewrite Z.leb_le. reflexivity.
Qed.


Lemma totalCount_perm (l l' : list Stat) : Permutation l l' -> totalCount l = totalCount l'.
Proof.
  unfold totalCount. induction 1; cbn [map fold_right]; lia.
Qed.

End Distribution.

Section Rows.

Import Tracker.

Local Open Scope Z_scope.

Variables data moodHistory : list MoodEntry.

Lemma emotionStats_rows :
  data <> [] -> emotionStats data moodHistory = sortStats (unsortedStats data moodHistory).
Proof.
  intro Hne. unfold emotionStats. destruct data as [|e rest]; [contradiction|].
  reflexivity.
Qed.

Lemma emotionStats_perm :
  data <> [] -> Permutation (emotionStats data moodHistory) (unsortedStats data moodHistory).
Proof. intro Hne. rewrite emotionStats_rows by exact Hne. apply sortStats_perm. Qed.

Lemma row_moods : map s_mood (unsortedStats data moodHistory) = map fst (counts data).
Proof. unfold unsortedStats. rewrite map_map. apply map_ext. intros [m c]. reflexivity. Qed.

Lemma row_counts : map s_count (unsortedStats data moodHistory) = map snd (counts data).
Proof. unfold unsortedStats. rewrite map_map. apply map_ext. intros [m c]. reflexivity. Qed.

(** Every row comes from one key of the count object, and carries the
    number of entries of its mood. *)
Lemma emotionStats_row (r : Stat) :
  data <> [] -> In r (emotionStats data moodHistory) ->
  s_count r = occurrences (s_mood r) data
  /\ 1 <= s_count r <= Z.of_nat (List.length data)
  /\ s_percentage r = percentage (s_count r) (Z.of_nat (List.length data))
  /\ s_emoji r = or_str_opt (rec_get (s_mood r) (emojiMap moodHistory)) defaultEmoji.
Proof.
  intros Hne Hin.
  apply (Permutation_in _ (emotionStats_perm Hne)) in Hin.
  unfold unsortedStats in Hin. apply in_map_iff in Hin. destruct Hin as [[m c] [<- Hmc]].
  destruct (counts_spec data) as (Hnd & Hget & _).
  apply (In_rec_get _ _ _ Hnd) in Hmc. rewrite Hget in Hmc.
  cbn [statOf s_count s_mood s_percentage s_emoji].
  pose proof (occurrences_le_length m data) as Hle.
  destruct (Z.ltb_spec 0 (occurrences m data)) as [Hpos|]; [|discriminate Hmc].
  injection Hmc as <-.
  repeat split; try reflexivity; lia.
Qed.

Lemma emotionStats_moods (m : Mood) :
  data <> [] ->
  (In m (map s_mood (emotionStats data moodHistory)) <-> exists e, In e data /\ mood e = m).
Proof.
  intro Hne.
  assert (Hp : Permutation (map s_mood (emotionStats data moodHistory))
                           (map fst (counts data))).
  { rewrite <- row_moods. apply Permutation_map. apply emotionStats_perm. exact Hne. }
  destruct (counts_spec data) as (_ & Hget & _).
  rewrite <- occurrences_pos. split.
  - intro Hin. apply (Permutation_in _ Hp) in Hin.
    apply existsb_Mood_In in Hin.
    destruct (Z.ltb_spec 0 (occurrences m data)) as [Hpos|Hle]; [exact Hpos|].
    exfalso. specialize (Hget m).
    destruct (Z.ltb_spec 0 (occurrences m data)); [lia|].
    apply rec_get_None in Hget. congruence.
  - intro Hpos. apply (Permutation_in _ (Permutation_sym Hp)).
    apply existsb_Mood_In.
    destruct (existsb (Mood_eqb m) (map fst (counts data))) eqn:E; [reflexivity|].
    apply rec_get_None in E. rewrite Hget in E.
    destruct (Z.ltb_spec 0 (occurrences m data)); [discriminate E | lia].
Qed.

End Rows.

(** C9.  For every non-empty list of entries, and whatever the full
    history: the counts of the rows add up to the number of entries; every
    row has a count of at least one and its mood is the mood of some entry
    of the list; every percentage lies between 0 and 100. *)
Theorem emotionStats_counts_and_percentages :
  forall data moodHistory : list MoodEntry,
    data <> [] ->
    let rows := Tracker.emotionStats data moodHistory in
    Tracker.totalCount rows = Z.of_nat (List.length data)
    /\ (forall r, In r rows ->
                  (1 <= Tracker.s_count r)%Z
                  /\ exists e, In e data /\ mood e = Tracker.s_mood r)
    /\ (forall r, In r rows -> (0 <= Tracker.s_percentage r <= 100)%Z).
Proof.
  intros data moodHistory Hne rows. subst rows.
  split; [|split].
  - rewrite (totalCount_perm _ _ (emotionStats_perm data moodHistory Hne)).
    unfold Tracker.totalCount. rewrite row_counts.
    destruct (counts_spec data) as (_ & _ & Hsum). exact Hsum.
  - intros r Hin.
    destruct (emotionStats_row data moodHistory r Hne Hin) as (_ & Hc & _).
    split; [lia|].
    apply (emotionStats_moods data moodHistory (Tracker.s_mood r) Hne).
    apply in_map. exact Hin.
  - intros r Hin.
    destruct (emotionStats_row data moodHistory r Hne Hin) as (_ & Hc & Hp & _).
    rewrite Hp. apply percentage_bounds. exact Hc.
Qed.

Lemma emotionStats_counts_and_percentages_witness :
  Tracker.totalCount (Tracker.emotionStats happyHappySad happyHappySad) = 3%Z.
Proof.
  refine (proj1 (emotionStats_counts_and_percentages happyHappySad happyHappySad _)).
  intro H; discriminate H.
Defined.




(** The model of the double arithmetic agrees with the reference
    semantics of binary64 on every count and total up to 64. *)
Lemma number_model_agrees_with_binary64 :
  Number.agrees_upto 64 = true /\ Number.agrees_on_samples = true.
Proof. split; vm_compute; reflexivity. Qed.

(** ** More on the recommendation generator *)

Lemma lookup_set_same (k : string) (v : value) (fields : list (string * value)) :
  lookup k (set k v fields) = Some v.
Proof.
  induction fields as [|[k' v'] rest IH]; cbn [set lookup].
  - rewrite String.eqb_refl. reflexivity.
  - destruct (String.eqb k k') eqn:E; cbn [lookup].
    + rewrite String.eqb_refl. reflexivity.
    + rewrite E. exact IH.
Qed.


Lemma recommendationsFallback_forMood (m : Mood) :
  get (recommendationsFallback m) "forMood" = Some (JStr (Mood_to_string m)).
Proof. destruct m; reflexivity. Qed.

(** X1.  For a non-empty history [getRecommendations] sends exactly one
    request, the one for the mood of the last entry; whatever the remote
    model answers, the bundle returned carries that mood as [forMood],
    also when the parsed response names another one; and neither the
    request nor the bundle depends on the entries before the last. *)
Theorem getRecommendations_keyed_by_latest_mood :
  forall (history history' : list MoodEntry) (e e' : MoodEntry)
         (model : Request -> Outcome),
    mood e' = mood e ->
    requests_of (getRecommendations (history ++ [e])) model
    = [recommendationsRequest (mood e)]
    /\ get (result_of (getRecommendations (history ++ [e])) model) "forMood"
       = Some (JStr (Mood_to_string (mood e)))
    /\ getRecommendations (history' ++ [e']) model
       = getRecommendations (history ++ [e]) model.
Proof.
  intros history history' e e' model Hsame.
  unfold requests_of, result_of. rewrite !getRecommendations_nonempty, Hsame.
  cbn [fst snd]. split; [reflexivity|]. split; [|reflexivity].
  destruct (model (recommendationsRequest (mood e))) as [ | | |parsed];
    try apply recommendationsFallback_forMood.
  cbn [get]. apply lookup_set_same.
Qed.

Lemma getRecommendations_keyed_by_latest_mood_witness :
  get (result_of (getRecommendations ([] ++ [sadEntry]))
                 (fun _ => Parsed (JObj [("forMood", JStr "Happy")])))
      "forMood"
  = Some (JStr "Sad").
Proof.
  exact (proj1 (proj2 (getRecommendations_keyed_by_latest_mood
                         [] [] sadEntry sadEntry
                         (fun _ => Parsed (JObj [("forMood", JStr "Happy")])) eq_refl))).
Defined.

(** X2.  Every bundle of the fallback table has the shape the response
    schema asks of the model: three breathing exercises, which are the
    generic ones for every mood, three journaling prompts, two playlists
    and two videos.  For [Neutral], [Calm], [Tired] and [Content] it is
    the default bundle with [forMood] replaced; [Happy] and [Excited]
    get the same journaling, music and videos. *)
Theorem recommendationsFallback_table :
  forall m : Mood,
    let bundle := recommendationsFallback m in
    recommendationsSchemaOk bundle = true
    /\ get bundle "breathing" = Some defaultBreathing
    /\ Screens.itemCount (get bundle "breathing") = Some 3%nat
    /\ Screens.itemCount (get bundle "journaling") = Some 3%nat
    /\ Screens.itemCount (get bundle "music") = Some 2%nat
    /\ Screens.itemCount (get bundle "videos") = Some 2%nat
    /\ (includes [Sad; Anxious; Angry; Happy; Excited] m = false ->
        bundle = JObj (set "forMood" (JStr (Mood_to_string m))
                           (spread defaultRecommendations)))
    /\ (includes [Happy; Excited] m = true ->
        get bundle "journaling" = Some happyJournaling
        /\ get bundle "music" = Some happyMusic
        /\ get bundle "videos" = Some happyVideos).
Proof.
  intro m. destruct m; cbv zeta;
    (split; [reflexivity|]); (split; [reflexivity|]); (split; [reflexivity|]);
    (split; [reflexivity|]); (split; [reflexivity|]); (split; [reflexivity|]);
    (split; intro H; [ discriminate H || reflexivity
                     | discriminate H || (repeat split) ]).
Qed.

Lemma recommendationsFallback_table_witness :
  recommendationsFallback Calm
  = JObj (set "forMood" (JStr "Calm") (spread defaultRecommendations))
  /\ get (recommendationsFallback Excited) "videos" = Some happyVideos.
Proof.
  destruct (recommendationsFallback_table Calm) as (_ & _ & _ & _ & _ & _ & Hcalm & _).
  destruct (recommendationsFallback_table Excited) as (_ & _ & _ & _ & _ & _ & _ & Hexc).
  split.
  - apply Hcalm. reflexivity.
  - apply Hexc. reflexivity.
Defined.

(** X3.  The videos asked of the model are meditation videos for [Sad],
    [Anxious], [Angry] and [Tired] and funny videos for the five other
    moods, whereas the fallback table holds funny videos for [Happy] and
    [Excited] only.  So when the call fails, the heading the screen
    derives from the first video is the one that goes with the requested
    type except for [Neutral], [Calm] and [Content], where funny videos
    were requested and meditation videos are shown. *)
Theorem fallback_videos_and_requested_type :
  forall m : Mood,
    (videoTypeFor m = Meditation <-> (m = Sad \/ m = Anxious \/ m = Angry \/ m = Tired))
    /\ req_schema (recommendationsRequest m) = RecommendationsSchema (videoTypeFor m)
    /\ Screens.videosHeading (recommendationsFallback m)
       = Some (if includes [Happy; Excited] m
               then "Funny Videos" else "Meditation Videos")
    /\ (Screens.videosHeading (recommendationsFallback m)
        = Some (Screens.headingFor (videoTypeFor m))
        <-> (m <> Neutral /\ m <> Calm /\ m <> Content)).
Proof.
  intro m. split; [|split; [reflexivity|split]].
  - split.
    + destruct m; intro H; try discriminate H; auto.
    + intros [->|[->|[->| ->]]]; reflexivity.
  - destruct m; reflexivity.
  - destruct m; split;
      try (intros _; repeat split; discriminate);
      try (intro H; vm_compute in H; discriminate H);
      try (intros (H1 & H2 & H3); congruence);
      try (intros _; reflexivity).
Qed.

(** ** More on the image path *)

(** X4.  Whatever the remote model answers, [analyzeImageMood] sends
    one request, which carries the picture as [image/jpeg], and returns an
    object with exactly the properties [mood], [emoji] and [notes], where
    the mood is a non-empty string, the emoji is truthy and the notes are
    a string. *)
Theorem analyzeImageMood_result_shape :
  forall (base64Image : string) (model : Request -> Outcome),
    requests_of (analyzeImageMood base64Image) model
    = [mkRequest visionModel
                 (PromptAndImage "Analyze the dominant mood of the person in this image."
                                 "image/jpeg" base64Image)
                 ImageMoodSchema]
    /\ exists (m : string) (e : value) (n : string),
        result_of (analyzeImageMood base64Image) model
        = JObj [("mood", JStr m); ("emoji", e); ("notes", JStr n)]
        /\ m <> "" /\ truthy e = true.
Proof.
  intros base64Image model. unfold requests_of, result_of.
  rewrite analyzeImageMood_unfold. cbn [fst snd]. split; [reflexivity|].
  assert (Hfb : exists (m : string) (e : value) (n : string),
             imageFallback = JObj [("mood", JStr m); ("emoji", e); ("notes", JStr n)]
             /\ m <> "" /\ truthy e = true).
  { exists "Neutral", (JStr "😐"), "Could not determine mood from image.".
    repeat split. discriminate. }
  destruct (model (imageRequest base64Image)) as [ | | |j]; try exact Hfb.
  destruct (imageResult j) as [r|] eqn:Er; [|exact Hfb].
  unfold imageResult in Er.
  destruct j; try discriminate Er;
    try (cbn in Er; discriminate Er).
  destruct (truthy_opt (get (JObj fields) "mood")) eqn:Em; [|discriminate Er].
  destruct (truthy_opt (get (JObj fields) "emoji")) eqn:Ee; [|discriminate Er].
  cbn [andb] in Er.
  destruct (get (JObj fields) "mood") as [[| | |s| |]|]; try discriminate Er.
  destruct (get (JObj fields) "emoji") as [e|]; try discriminate Er.
  injection Er as <-. exists s, e, (detectedNotes s). repeat split.
  - cbn in Em. intro Hs. subst s. discriminate Em.
  - exact Ee.
Qed.

(** ** More on the chart *)

(** X5.  No mood is plotted at [0]: every chart value lies between 1
    and 8.  Two moods are plotted at the same height exactly when they
    are the same mood or are [Angry] and [Neutral]. *)
Theorem moodToValue_range_and_collisions :
  forall a b : Mood,
    (1 <= Tracker.moodToValue a <= 8)%Z
    /\ (Tracker.moodToValue a = Tracker.moodToValue b
        <-> (a = b \/ (a = Angry /\ b = Neutral) \/ (a = Neutral /\ b = Angry)))
    /\ (forall (label : Z -> string) (data : list MoodEntry) (p : Tracker.ChartPoint),
           In p (Tracker.chartData label data) ->
           (1 <= Tracker.moodValue p <= 8)%Z).
Proof.
  intros a b.
  assert (Hrange : forall m, (1 <= Tracker.moodToValue m <= 8)%Z).
  { intro m. destruct m; vm_compute; split; discriminate. }
  split; [apply Hrange|]. split.
  - split.
    + destruct a, b; intro H; try discriminate H; auto.
    + intros [->|[[-> ->]|[-> ->]]]; reflexivity.
  - intros label data p Hin. unfold Tracker.chartData in Hin.
    apply in_map_iff in Hin. destruct Hin as [e [<- _]]. apply Hrange.
Qed.

Lemma moodToValue_range_and_collisions_witness :
  (1 <= Tracker.moodValue (Tracker.mkChartPoint "Jan 1" 4 Angry) <= 8)%Z.
Proof.
  refine (proj2 (proj2 (moodToValue_range_and_collisions Angry Neutral))
            (fun _ => "Jan 1") [entryOf Angry "😡"] _ _).
  left. reflexivity.
Defined.





(** ** Lists of the home screen *)

Lemma sliceLast_length {A : Type} (n : nat) (xs : list A) :
  List.length (Screens.sliceLast n xs) = Nat.min n (List.length xs).
Proof. unfold Screens.sliceLast. rewrite length_skipn. lia. Qed.

Lemma sliceLast_nth {A : Type} (n : nat) (xs : list A) (k : nat) :
  nth_error (Screens.sliceLast n xs) k = nth_error xs (List.length xs - n + k).
Proof. unfold Screens.sliceLast. apply nth_error_skipn. Qed.

Lemma homeLatest_is_latestEntry (history : list MoodEntry) :
  Screens.homeLatest history = latestEntry history.
Proof. reflexivity. Qed.

(** X7.  The chart of the home screen shows the placeholder exactly
    when the history has fewer than two entries; otherwise it shows the
    last ten entries (all of them when there are fewer), oldest first,
    each at the value and with the mood of its entry. *)
Theorem homeChart_shows_last_ten :
  forall (label : Z -> string) (history : list MoodEntry),
    (Screens.homeChart label history = Tracker.NotEnoughData
     <-> (List.length history < 2)%nat)
    /\ ((2 <= List.length history)%nat ->
        exists points,
          Screens.homeChart label history = Tracker.LineChart points
          /\ List.length points = Nat.min 10 (List.length history)
          /\ forall k, (k < List.length points)%nat ->
               nth_error points k
               = option_map (Notions.pointOf label)
                   (nth_error history (List.length history - List.length points + k))).
Proof.
  intros label history.
  unfold Screens.homeChart, Tracker.MoodChart.
  assert (Hlen : List.length (Tracker.chartData label (Screens.sliceLast 10 history))
                 = Nat.min 10 (List.length history)).
  { unfold Tracker.chartData. rewrite length_map. apply sliceLast_length. }
  rewrite Hlen. split.
  - destruct (Nat.ltb_spec (Nat.min 10 (List.length history)) 2) as [H|H].
    + split; [intros _; lia | reflexivity].
    + split; [discriminate | intro; lia].
  - intro H2.
    exists (Tracker.chartData label (Screens.sliceLast 10 history)).
    destruct (Nat.ltb_spec (Nat.min 10 (List.length history)) 2) as [H|H]; [lia|].
    split; [reflexivity|]. split; [exact Hlen|].
    intros k Hk. rewrite Hlen. unfold Tracker.chartData.
    rewrite nth_error_map, sliceLast_nth.
    replace (List.length history - 10 + k)%nat
      with (List.length history - Nat.min 10 (List.length history) + k)%nat by lia.
    reflexivity.
Qed.

Lemma homeChart_shows_last_ten_witness :
  exists points,
    Screens.homeChart (fun _ => "Jan 1") happyHappySad = Tracker.LineChart points
    /\ List.length points = 3%nat
    /\ forall k, (k < List.length points)%nat ->
         nth_error points k
         = option_map (Notions.pointOf (fun _ => "Jan 1"))
             (nth_error happyHappySad (3 - List.length points + k)).
Proof.
  refine (proj2 (homeChart_shows_last_ten (fun _ => "Jan 1") happyHappySad) _).
  cbn. lia.
Defined.

(** X8.  The list of recent entries holds the last five entries of
    the history (all of them when there are fewer), the most recent
    first: its entry number [k] is the entry [k] places before the end.
    Its first entry is the entry of the mood summary, and it is empty
    exactly when the history is. *)
Theorem recentEntries_most_recent_first :
  forall (data : list MoodEntry),
    List.length (Screens.recentEntries data) = Nat.min 5 (List.length data)
    /\ (forall k, (k < Nat.min 5 (List.length data))%nat ->
          nth_error (Screens.recentEntries data) k
          = nth_error data (List.length data - 1 - k))
    /\ hd_error (Screens.recentEntries data) = Screens.homeLatest data
    /\ (Screens.recentEntries data = [] <-> data = []).
Proof.
  intro data.
  assert (Hlen : List.length (Screens.recentEntries data) = Nat.min 5 (List.length data)).
  { unfold Screens.recentEntries. rewrite length_rev. apply sliceLast_length. }
  assert (Hnth : forall k, (k < Nat.min 5 (List.length data))%nat ->
                   nth_error (Screens.recentEntries data) k
                   = nth_error data (List.length data - 1 - k)).
  { intros k Hk. unfold Screens.recentEntries.
    rewrite nth_error_rev, sliceLast_length.
    destruct (Nat.ltb_spec k (Nat.min 5 (List.length data))) as [_|H]; [|lia].
    rewrite sliceLast_nth. f_equal. lia. }
  split; [exact Hlen|]. split; [exact Hnth|]. split.
  - unfold Screens.homeLatest.
    destruct (Nat.ltb_spec 0 (List.length data)) as [Hpos|Hzero].
    + pose proof (Hnth 0%nat ltac:(lia)) as H0. rewrite Nat.sub_0_r in H0.
      rewrite <- H0. destruct (Screens.recentEntries data); reflexivity.
    + destruct data; [reflexivity | cbn in Hzero; lia].
  - split.
    + intro H. rewrite H in Hlen. destruct data; [reflexivity | cbn in Hlen; lia].
    + intros ->. reflexivity.
Qed.

Lemma recentEntries_most_recent_first_witness :
  nth_error (Screens.recentEntries happyHappySad) 0
  = nth_error happyHappySad (3 - 1 - 0).
Proof.
  refine (proj1 (proj2 (recentEntries_most_recent_first happyHappySad)) 0%nat _).
  cbn. lia.
Defined.

(** ** More on the distribution *)

Section MoreRows.

Import Tracker.

Local Open Scope Z_scope.

Lemma percentage_exact (c t q : Z) :
  1 <= c <= t -> t < 2 ^ 32 -> 100 * c = q * t -> percentage c t = q.
Proof.
  intros Hc Ht Hq. pose proof (percentage_nearest c t Hc Ht) as Hn.
  rewrite Hq in Hn. rewrite <- Z.mul_sub_distr_r in Hn.
  rewrite Z.abs_mul, (Z.abs_eq t) in Hn by lia.
  assert (Z.abs (percentage c t - q) < 1).
  { apply Z.mul_lt_mono_pos_r with t; lia. }
  lia.
Qed.

Lemma percentage_monotone (c c' t : Z) :
  1 <= c -> c <= c' -> c' <= t -> t < 2 ^ 32 ->
  percentage c t <= percentage c' t.
Proof.
  intros Hc Hcc Hct Ht.
  pose proof (percentage_nearest c t ltac:(lia) Ht) as Hn.
  pose proof (percentage_nearest c' t ltac:(lia) Ht) as Hn'.
  destruct (Z.eq_dec c c') as [->|Hne]; [lia|].
  destruct (Z.le_gt_cases (percentage c t) (percentage c' t)) as [Hle|Hgt]; [exact Hle|].
  exfalso.
  assert (Hstep : (percentage c' t + 1) * t <= percentage c t * t)
    by (apply Z.mul_le_mono_nonneg_r; lia).
  lia.
Qed.

Lemma Sorted_weaken {A : Type} (R R' : A -> A -> Prop) (l : list A) :
  (forall a b, In a l -> In b l -> R a b -> R' a b) ->
  Sorted R l -> Sorted R' l.
Proof.
  intros Himp Hs. induction Hs as [|a l Hs IH Hhd].
  - constructor.
  - constructor.
    + apply IH. intros x y Hx Hy. apply Himp; right; assumption.
    + destruct Hhd as [|b l Hab]; constructor.
      apply Himp; [left; reflexivity | right; left; reflexivity | exact Hab].
Qed.

Lemma byCountDescending_transitive :
  Relations_1.Transitive byCountDescending.
Proof. intros a b c Hab Hbc. unfold byCountDescending in *. lia. Qed.

Lemma totals_of_rows (t : Z) (rows : list Stat) :
  Forall (fun r => 2 * Z.abs (s_percentage r * t - 100 * s_count r) <= t) rows ->
  2 * Z.abs (Notions.totalPercentage rows * t - 100 * totalCount rows)
  <= Z.of_nat (List.length rows) * t.
Proof.
  unfold Notions.totalPercentage, totalCount.
  induction 1 as [|r rows Hr _ IH]; cbn [map fold_right List.length].
  - cbn. lia.
  - rewrite Nat2Z.inj_succ.
    set (P := fold_right Z.add 0 (map s_percentage rows)) in *.
    set (C := fold_right Z.add 0 (map s_count rows)) in *.
    replace ((s_percentage r + P) * t - 100 * (s_count r + C))
      with ((s_percentage r * t - 100 * s_count r) + (P * t - 100 * C)) by ring.
    pose proof (Z.abs_triangle (s_percentage r * t - 100 * s_count r) (P * t - 100 * C)).
    lia.
Qed.

Lemma moods_at_most_nine (l : list Mood) : NoDup l -> (List.length l <= 9)%nat.
Proof.
  intro H. apply (NoDup_incl_length H (l' := all_moods)).
  intros m _. destruct m; cbn; auto 10.
Qed.

Variables data moodHistory : list MoodEntry.
Hypothesis nonempty : data <> [].
Hypothesis array : Z.of_nat (List.length data) < 2 ^ 32.

Lemma rows_nearest :
  Forall (fun r => 2 * Z.abs (s_percentage r * Z.of_nat (List.length data)
                              - 100 * s_count r)
                   <= Z.of_nat (List.length data))
         (emotionStats data moodHistory).
Proof.
  apply Forall_forall. intros r Hin.
  destruct (emotionStats_row data moodHistory r nonempty Hin) as (_ & Hb & Hp & _).
  rewrite Hp. apply percentage_nearest; assumption.
Qed.

Lemma rows_NoDup : NoDup (map s_mood (emotionStats data moodHistory)).
Proof.
  apply (Permutation_NoDup
           (Permutation_sym
              (Permutation_map s_mood (emotionStats_perm data moodHistory nonempty)))).
  rewrite row_moods. destruct (counts_spec data) as (Hnd & _). exact Hnd.
Qed.

Lemma rows_total : totalCount (emotionStats data moodHistory) = Z.of_nat (List.length data).
Proof.
  rewrite (totalCount_perm _ _ (emotionStats_perm data moodHistory nonempty)).
  unfold totalCount. rewrite row_counts.
  destruct (counts_spec data) as (_ & _ & Hsum). exact Hsum.
Qed.

End MoreRows.

(** X9.  A percentage that is a whole number is reported exactly: when
    the number of entries divides 100 times the count of a row, the row
    carries the quotient.  In particular a list whose entries all have the
    same mood yields the single row of that mood with all the entries and
    100 percent. *)
Theorem emotionStats_exact_percentages :
  forall (data moodHistory : list MoodEntry),
    data <> [] ->
    (Z.of_nat (List.length data) < 2 ^ 32)%Z ->
    (forall r q, In r (Tracker.emotionStats data moodHistory) ->
                 (100 * Tracker.s_count r = q * Z.of_nat (List.length data))%Z ->
                 Tracker.s_percentage r = q)
    /\ (forall m, (forall e, In e data -> mood e = m) ->
                  map Tracker.summary (Tracker.emotionStats data moodHistory)
                  = [(m, Z.of_nat (List.length data), 100%Z)]).
Proof.
  intros data moodHistory Hne Hlen.
  assert (Hexact : forall r q, In r (Tracker.emotionStats data moodHistory) ->
                     (100 * Tracker.s_count r = q * Z.of_nat (List.length data))%Z ->
                     Tracker.s_percentage r = q).
  { intros r q Hin Hq.
    destruct (emotionStats_row data moodHistory r Hne Hin) as (_ & Hb & Hp & _).
    rewrite Hp. apply percentage_exact; assumption. }
  split; [exact Hexact|].
  intros m Hall.
  pose proof (rows_NoDup data moodHistory Hne) as Hnd.
  pose proof (rows_total data moodHistory Hne) as Htot.
  assert (Hmood : forall r, In r (Tracker.emotionStats data moodHistory) ->
                            Tracker.s_mood r = m).
  { intros r Hin.
    assert (Hm : In (Tracker.s_mood r)
                    (map Tracker.s_mood (Tracker.emotionStats data moodHistory)))
      by (apply in_map; exact Hin).
    apply (emotionStats_moods data moodHistory _ Hne) in Hm.
    destruct Hm as [e [He <-]]. apply Hall. exact He. }
  destruct (Tracker.emotionStats data moodHistory) as [|r [|r' rest]] eqn:Erows.
  - cbn in Htot. destruct data; [contradiction | cbn in Htot; lia].
  - unfold Tracker.totalCount in Htot. cbn in Htot.
    assert (Hc : Tracker.s_count r = Z.of_nat (List.length data)) by lia.
    cbn [map]. unfold Tracker.summary.
    rewrite (Hmood r (or_introl eq_refl)), Hc.
    rewrite (Hexact r 100%Z (or_introl eq_refl)) by lia. reflexivity.
  - exfalso. cbn [map] in Hnd.
    rewrite (Hmood r (or_introl eq_refl)) in Hnd.
    rewrite (Hmood r' (or_intror (or_introl eq_refl))) in Hnd.
    inversion Hnd as [|x l Hnotin _]; subst. apply Hnotin. left. reflexivity.
Qed.

Lemma emotionStats_exact_percentages_witness :
  map Tracker.summary (Tracker.emotionStats [entryOf Calm "😌"; entryOf Calm ""] [])
  = [(Calm, 2%Z, 100%Z)].
Proof.
  refine (proj2 (emotionStats_exact_percentages
                   [entryOf Calm "😌"; entryOf Calm ""] [] _ _) Calm _).
  - intro H; discriminate H.
  - reflexivity.
  - intros e [<-|[<-|[]]]; reflexivity.
Defined.

(** X10.  There are at most nine rows, and their percentages add up to
    100 within half a point per row: the sum lies between 96 and 104. *)
Theorem emotionStats_percentages_add_up :
  forall (data moodHistory : list MoodEntry),
    data <> [] ->
    (Z.of_nat (List.length data) < 2 ^ 32)%Z ->
    let rows := Tracker.emotionStats data moodHistory in
    (1 <= List.length rows <= 9)%nat
    /\ (2 * Z.abs (Notions.totalPercentage rows - 100) <= Z.of_nat (List.length rows))%Z
    /\ (96 <= Notions.totalPercentage rows <= 104)%Z.
Proof.
  intros data moodHistory Hne Hlen rows. subst rows.
  pose proof (rows_NoDup data moodHistory Hne) as Hnd.
  pose proof (rows_total data moodHistory Hne) as Htot.
  pose proof (totals_of_rows _ _ (rows_nearest data moodHistory Hne Hlen)) as Hsum.
  apply moods_at_most_nine in Hnd. rewrite length_map in Hnd.
  rewrite Htot in Hsum.
  set (rows := Tracker.emotionStats data moodHistory) in *.
  set (t := Z.of_nat (List.length data)) in *.
  assert (Ht : (0 < t)%Z).
  { subst t. destruct data; [contradiction | cbn [List.length]; lia]. }
  assert (Hrows : (1 <= List.length rows)%nat).
  { destruct rows eqn:E; [|cbn; lia].
    unfold Tracker.totalCount in Htot. cbn in Htot. lia. }
  assert (Hbound : (2 * Z.abs (Notions.totalPercentage rows - 100)
                    <= Z.of_nat (List.length rows))%Z).
  { replace (Notions.totalPercentage rows * t - 100 * t)%Z
      with ((Notions.totalPercentage rows - 100) * t)%Z in Hsum by ring.
    rewrite Z.abs_mul, (Z.abs_eq t) in Hsum by lia.
    apply Z.mul_le_mono_pos_r with t; [exact Ht|]. lia. }
  split; [lia|]. split; [exact Hbound|]. lia.
Qed.

Lemma emotionStats_percentages_add_up_witness :
  (96 <= Notions.totalPercentage (Tracker.emotionStats happyHappySad happyHappySad) <= 104)%Z.
Proof.
  refine (proj2 (proj2 (emotionStats_percentages_add_up happyHappySad happyHappySad _ _))).
  - intro H; discriminate H.
  - reflexivity.
Defined.

(** X11.  The rows, which are in descending order of count, are also
    in descending order of percentage, and the first row has the largest
    count and the largest percentage of all. *)
Theorem emotionStats_most_frequent_first :
  forall (data moodHistory : list MoodEntry),
    data <> [] ->
    (Z.of_nat (List.length data) < 2 ^ 32)%Z ->
    let rows := Tracker.emotionStats data moodHistory in
    Sorted Notions.byPercentageDescending rows
    /\ exists top rest,
        rows = top :: rest
        /\ forall r, In r rows ->
             (Tracker.s_count r <= Tracker.s_count top)%Z
             /\ (Tracker.s_percentage r <= Tracker.s_percentage top)%Z.
Proof.
  intros data moodHistory Hne Hlen rows. subst rows.
  assert (Hsorted : Sorted Tracker.byCountDescending (Tracker.emotionStats data moodHistory)).
  { rewrite emotionStats_rows by exact Hne. apply sortStats_sorted. }
  assert (Hmono : forall a b, In a (Tracker.emotionStats data moodHistory) ->
                              In b (Tracker.emotionStats data moodHistory) ->
                              (Tracker.s_count b <= Tracker.s_count a)%Z ->
                              (Tracker.s_percentage b <= Tracker.s_percentage a)%Z).
  { intros a b Ha Hb Hab.
    destruct (emotionStats_row data moodHistory a Hne Ha) as (_ & Hba & Hpa & _).
    destruct (emotionStats_row data moodHistory b Hne Hb) as (_ & Hbb & Hpb & _).
    rewrite Hpa, Hpb. apply percentage_monotone; lia. }
  split.
  - apply (Sorted_weaken _ _ _ Hmono Hsorted).
  - pose proof (rows_total data moodHistory Hne) as Htot.
    destruct (Tracker.emotionStats data moodHistory) as [|top rest] eqn:Erows.
    + unfold Tracker.totalCount in Htot. cbn in Htot.
      destruct data; [contradiction | cbn in Htot; lia].
    + exists top, rest. split; [reflexivity|].
      apply (Sorted_StronglySorted byCountDescending_transitive) in Hsorted.
      inversion Hsorted as [|x l _ Hall]; subst.
      assert (Hcount : forall r, In r (top :: rest) ->
                                 (Tracker.s_count r <= Tracker.s_count top)%Z).
      { intros r [<-|Hin]; [lia|]. rewrite Forall_forall in Hall. apply Hall. exact Hin. }
      intros r Hin. split; [apply Hcount; exact Hin|].
      apply Hmono; [left; reflexivity | exact Hin | apply Hcount; exact Hin].
Qed.

Lemma emotionStats_most_frequent_first_witness :
  Sorted Notions.byPercentageDescending (Tracker.emotionStats happyHappySad happyHappySad).
Proof.
  refine (proj1 (emotionStats_most_frequent_first happyHappySad happyHappySad _ _)).
  - intro H; discriminate H.
  - reflexivity.
Defined.

(** ** The order of rows with equal counts *)

Section TieBreak.

Import Tracker Notions.

Lemma firstIndex_le (m : Mood) (data : list MoodEntry) :
  (firstIndex m data <= List.length data)%nat.
Proof.
  induction data as [|e data IH]; cbn [firstIndex List.length]; [lia|].
  destruct (Mood_eqb (mood e) m); lia.
Qed.

Lemma firstIndex_found (m : Mood) (data : list MoodEntry) :
  (firstIndex m data < List.length data)%nat <-> (0 < occurrences m data)%Z.
Proof.
  rewrite occurrences_pos. induction data as [|e data IH]; cbn [firstIndex List.length].
  - split; [lia | intros [x [[] _]]].
  - destruct (Mood_eqb (mood e) m) eqn:E.
    + apply Mood_eqb_eq in E. split; [|lia].
      intros _. exists e. split; [left; reflexivity | exact E].
    + split.
      * intro H. destruct (proj1 IH ltac:(lia)) as [x [Hx Hm]].
        exists x. split; [right; exact Hx | exact Hm].
      * intros [x [[<-|Hx] Hm]].
        -- apply Mood_eqb_eq in Hm. congruence.
        -- assert (firstIndex m data < List.length data)%nat
             by (apply IH; exists x; split; assumption).
           lia.
Qed.

Lemma firstIndex_app (m : Mood) (seen rest : list MoodEntry) :
  (firstIndex m seen < List.length seen)%nat ->
  firstIndex m (seen ++ rest) = firstIndex m seen.
Proof.
  induction seen as [|e seen IH]; cbn [firstIndex List.length app]; [lia|].
  destruct (Mood_eqb (mood e) m); [reflexivity|].
  intro H. rewrite IH by lia. reflexivity.
Qed.

Lemma firstIndex_new (m : Mood) (seen : list MoodEntry) (e : MoodEntry) :
  firstIndex m seen = List.length seen -> mood e = m ->
  firstIndex m (seen ++ [e]) = List.length seen.
Proof.
  intros Hnone Hm. induction seen as [|x seen IH]; cbn [firstIndex List.length app] in *.
  - rewrite Hm, Mood_eqb_refl. reflexivity.
  - destruct (Mood_eqb (mood x) m); [discriminate Hnone|].
    rewrite IH by lia. reflexivity.
Qed.

Lemma StronglySorted_snoc {A : Type} (R : A -> A -> Prop) (l : list A) (x : A) :
  StronglySorted R l -> Forall (fun y => R y x) l -> StronglySorted R (l ++ [x]).
Proof.
  induction 1 as [|a l Hs IH Ha]; intro Hall; cbn [app].
  - repeat constructor.
  - inversion Hall as [|a' l' Hax Hall']; subst. constructor.
    + apply IH. exact Hall'.
    + apply Forall_app. split; [exact Ha | repeat constructor; exact Hax].
Qed.

Lemma StronglySorted_weaken {A : Type} (R R' : A -> A -> Prop) (l : list A) :
  (forall a b, In a l -> In b l -> R a b -> R' a b) ->
  StronglySorted R l -> StronglySorted R' l.
Proof.
  intros Himp Hs. induction Hs as [|a l Hs IH Ha].
  - constructor.
  - constructor.
    + apply IH. intros x y Hx Hy. apply Himp; right; assumption.
    + rewrite Forall_forall in *. intros b Hb.
      apply Himp; [left; reflexivity | right; exact Hb | apply Ha; exact Hb].
Qed.

Lemma StronglySorted_map {A B : Type} (f : A -> B) (R : B -> B -> Prop) (l : list A) :
  StronglySorted R (map f l) -> StronglySorted (fun a b => R (f a) (f b)) l.
Proof.
  induction l as [|a l IH]; cbn [map]; intro H.
  - constructor.
  - inversion H as [|x l' Hs Ha]; subst. constructor; [apply IH; exact Hs|].
    rewrite Forall_forall in *. intros b Hb. apply Ha. apply in_map. exact Hb.
Qed.

(** The keys of the count object are in the order in which their moods
    first occur. *)
Lemma counts_keys_order (data : list MoodEntry) :
  forall acc seen,
    countsInv acc seen ->
    StronglySorted (fun k k' => (firstIndex k seen < firstIndex k' seen)%nat) (map fst acc) ->
    StronglySorted (fun k k' => (firstIndex k (seen ++ data) < firstIndex k' (seen ++ data))%nat)
                   (map fst (fold_left countStep data acc)).
Proof.
  induction data as [|e data IH]; intros acc seen Hinv Hs; cbn [fold_left].
  - rewrite app_nil_r. exact Hs.
  - replace (seen ++ e :: data) with ((seen ++ [e]) ++ data)
      by (rewrite <- app_assoc; reflexivity).
    apply IH; [apply countsInv_step; exact Hinv|].
    destruct Hinv as (Hnd & Hget & _).
    assert (Hkey : forall k, In k (map fst acc) ->
                             (firstIndex k seen < List.length seen)%nat).
    { intros k Hk. apply firstIndex_found.
      apply existsb_Mood_In in Hk.
      destruct (Z.ltb_spec 0 (occurrences k seen)) as [Hpos|Hle]; [exact Hpos|].
      exfalso. specialize (Hget k).
      destruct (Z.ltb_spec 0 (occurrences k seen)); [lia|].
      apply rec_get_None in Hget. congruence. }
    assert (Hold : StronglySorted
                     (fun k k' => (firstIndex k (seen ++ [e]) < firstIndex k' (seen ++ [e]))%nat)
                     (map fst acc)).
    { refine (StronglySorted_weaken _ _ (map fst acc) _ Hs).
      intros a b Ha Hb Hab.
      rewrite !firstIndex_app by (apply Hkey; assumption). exact Hab. }
    unfold countStep. rewrite keys_rec_set.
    destruct (existsb (Mood_eqb (mood e)) (map fst acc)) eqn:Ein; [exact Hold|].
    apply StronglySorted_snoc; [exact Hold|].
    apply Forall_forall. intros k Hk.
    rewrite firstIndex_app by (apply Hkey; exact Hk).
    assert (Hnone : firstIndex (mood e) seen = List.length seen).
    { pose proof (firstIndex_le (mood e) seen) as Hle.
      destruct (Nat.eq_dec (firstIndex (mood e) seen) (List.length seen)) as [E|N];
        [exact E|].
      exfalso. assert (Hlt : (firstIndex (mood e) seen < List.length seen)%nat) by lia.
      apply firstIndex_found in Hlt. specialize (Hget (mood e)).
      destruct (Z.ltb_spec 0 (occurrences (mood e) seen)); [|lia].
      apply rec_get_None in Ein. congruence. }
    rewrite (firstIndex_new _ _ _ Hnone eq_refl). apply Hkey. exact Hk.
Qed.

Variables data moodHistory : list MoodEntry.

Lemma unsortedStats_order :
  StronglySorted
    (fun a b => (firstIndex (s_mood a) data < firstIndex (s_mood b) data)%nat)
    (unsortedStats data moodHistory).
Proof.
  apply (StronglySorted_map s_mood
           (fun k k' => (firstIndex k data < firstIndex k' data)%nat)).
  rewrite row_moods. unfold counts.
  apply (counts_keys_order data [] []).
  - split; [constructor|]. split; [intro m; reflexivity | reflexivity].
  - constructor.
Qed.

Lemma insertStat_ranks (x : Stat) (l : list Stat) :
  StronglySorted (ranksBefore data) l ->
  Forall (fun y => (firstIndex (s_mood x) data < firstIndex (s_mood y) data)%nat) l ->
  StronglySorted (ranksBefore data) (insertStat x l).
Proof.
  induction l as [|y rest IH]; intros Hs Hx; cbn [insertStat].
  - repeat constructor.
  - inversion Hs as [|y' l' Hrest Hy]; subst.
    inversion Hx as [|y' l' Hxy Hxrest]; subst.
    unfold compareStats. destruct (Z.leb_spec (s_count y - s_count x) 0) as [Hle|Hgt].
    + constructor; [exact Hs|]. constructor.
      * unfold ranksBefore. destruct (Z.eq_dec (s_count x) (s_count y)); [right; auto | left; lia].
      * rewrite Forall_forall in *. intros z Hz.
        specialize (Hy z Hz). specialize (Hxrest z Hz). unfold ranksBefore in *.
        destruct (Z.eq_dec (s_count x) (s_count z)); [right; auto | left; lia].
    + constructor; [apply IH; assumption|].
      rewrite Forall_forall in *. intros z Hz.
      apply (Permutation_in _ (insertStat_perm x rest)) in Hz.
      destruct Hz as [<-|Hz]; [left; lia | apply Hy; exact Hz].
Qed.

Lemma sortStats_ranks (l : list Stat) :
  StronglySorted
    (fun a b => (firstIndex (s_mood a) data < firstIndex (s_mood b) data)%nat) l ->
  StronglySorted (ranksBefore data) (sortStats l).
Proof.
  induction 1 as [|x l Hs IH Hx]; cbn [sortStats fold_right]; [constructor|].
  fold (sortStats l). apply insertStat_ranks; [exact IH|].
  rewrite Forall_forall in *. intros y Hy. apply Hx.
  apply (Permutation_in _ (sortStats_perm l)). exact Hy.
Qed.

End TieBreak.

(** X12.  The order of the rows is fully determined: a row comes before
    every row with a smaller count, and before every row with the same
    count whose mood first occurs later in the list.  (The keys of the
    count object come in the order of first occurrence and the sort is
    stable.) *)
Theorem emotionStats_ties_in_order_of_first_occurrence :
  forall (data moodHistory : list MoodEntry),
    data <> [] ->
    StronglySorted (Notions.ranksBefore data) (Tracker.emotionStats data moodHistory).
Proof.
  intros data moodHistory Hne. rewrite emotionStats_rows by exact Hne.
  apply sortStats_ranks. apply unsortedStats_order.
Qed.

Lemma emotionStats_ties_in_order_of_first_occurrence_witness :
  StronglySorted (Notions.ranksBefore [entryOf Sad "😢"; entryOf Happy "😄"])
    (Tracker.emotionStats [entryOf Sad "😢"; entryOf Happy "😄"] []).
Proof.
  apply emotionStats_ties_in_order_of_first_occurrence. intro H; discriminate H.
Defined.

(** ** The time windows of the tracker *)

Lemma since_since (c1 c2 : Z) (history : list MoodEntry) :
  (c1 <= c2)%Z ->
  Tracker.since c2 (Tracker.since c1 history) = Tracker.since c2 history.
Proof.
  intro Hc. unfold Tracker.since.
  induction history as [|e history IH]; cbn [filter]; [reflexivity|].
  destruct (Z.leb_spec c1 (date e)) as [H1|H1]; cbn [filter].
  - rewrite IH. reflexivity.
  - destruct (Z.leb_spec c2 (date e)) as [H2|H2]; [lia | exact IH].
Qed.

Lemma filter_length_le {A : Type} (f : A -> bool) (l : list A) :
  (List.length (filter f l) <= List.length l)%nat.
Proof.
  induction l as [|a l IH]; cbn [filter List.length]; [lia|].
  destruct (f a); cbn [List.length]; lia.
Qed.

Lemma occurrences_since_le (m : Mood) (c : Z) (history : list MoodEntry) :
  (Tracker.occurrences m (Tracker.since c history) <= Tracker.occurrences m history)%Z.
Proof.
  unfold Tracker.occurrences, Tracker.since. apply inj_le.
  induction history as [|e history IH]; cbn [filter List.length]; [lia|].
  destruct (c <=? date e)%Z; cbn [filter];
    destruct (Mood_eqb (mood e) m); cbn [List.length]; lia.
Qed.

(** X13.  With the cutoff of the longer window no later than the cutoff
    of the shorter one, as the tracker screen computes them: the shorter
    window is the longer one filtered again, every entry of the shorter
    window is in the longer one and in the history, no window has more
    entries or more entries of a mood than the next larger, and an entry
    whose date is not before the cutoffs goes to the end of both windows
    when it is appended to the history. *)
Theorem windows_are_nested :
  forall (weekCutoff monthCutoff : Z) (history : list MoodEntry),
    (monthCutoff <= weekCutoff)%Z ->
    let week := Tracker.since weekCutoff history in
    let month := Tracker.since monthCutoff history in
    Tracker.since weekCutoff month = week
    /\ incl week month /\ incl month history
    /\ (List.length week <= List.length month <= List.length history)%nat
    /\ (forall m, (Tracker.occurrences m week <= Tracker.occurrences m month
                   <= Tracker.occurrences m history)%Z)
    /\ (forall e, In e week <-> (In e history /\ (weekCutoff <= date e)%Z))
    /\ (forall e, (weekCutoff <= date e)%Z ->
          Tracker.since weekCutoff (history ++ [e]) = week ++ [e]
          /\ Tracker.since monthCutoff (history ++ [e]) = month ++ [e]).
Proof.
  intros weekCutoff monthCutoff history Hc week month. subst week month.
  assert (Hnest : Tracker.since weekCutoff (Tracker.since monthCutoff history)
                  = Tracker.since weekCutoff history) by (apply since_since; exact Hc).
  split; [exact Hnest|]. split; [|split; [|split; [|split; [|split]]]].
  - rewrite <- Hnest. apply incl_filter.
  - apply incl_filter.
  - split; [rewrite <- Hnest|]; apply filter_length_le.
  - intro m. split; [rewrite <- Hnest|]; apply occurrences_since_le.
  - intro e. apply since_window.
  - intros e He. unfold Tracker.since. rewrite !filter_app. cbn [filter].
    destruct (Z.leb_spec weekCutoff (date e)); [|lia].
    destruct (Z.leb_spec monthCutoff (date e)); [|lia].
    split; reflexivity.
Qed.

Lemma windows_are_nested_witness :
  Tracker.since 20 (Tracker.since 10 [mkMoodEntry "a" Calm "😌" 5 SrcVoice None;
                                      mkMoodEntry "b" Sad "😢" 15 SrcVoice None;
                                      mkMoodEntry "c" Happy "😄" 25 SrcVoice None])
  = Tracker.since 20 [mkMoodEntry "a" Calm "😌" 5 SrcVoice None;
                      mkMoodEntry "b" Sad "😢" 15 SrcVoice None;
                      mkMoodEntry "c" Happy "😄" 25 SrcVoice None].
Proof.
  refine (proj1 (windows_are_nested 20 10 _ _)). lia.
Defined.

(** ** More on the session *)

Section MoreSession.

Import App.

Variable toISOString : Z -> string.

Lemma run_snoc (st : AppState) (actions : list Action) (a : Action) :
  run toISOString st (actions ++ [a]) = step toISOString (run toISOString st actions) a.
Proof. unfold run. rewrite fold_left_app. reflexivity. Qed.

Lemma highDistressAlert_alertAfter (actions : list Action) :
  forall st, highDistressAlert (run toISOString st actions)
             = Notions.alertAfter (highDistressAlert st) actions.
Proof.
  induction actions as [|a actions IH]; intro st; [reflexivity|].
  cbn [run fold_left]. change (fold_left (step toISOString) actions ?s)
    with (run toISOString s actions).
  rewrite IH, highDistressAlert_step. destruct a; reflexivity.
Qed.

Lemma alertAfter_no_dismiss (actions : list Action) (b : bool) :
  ~ In DoDismiss actions ->
  Notions.alertAfter b actions
  = b || existsb (fun a => match a with
                           | DoAddMoodEntry entry _ _ => isHighDistress (in_mood entry)
                           | _ => false
                           end) actions.
Proof.
  revert b. induction actions as [|a actions IH]; intros b Hno.
  - cbn. rewrite orb_false_r. reflexivity.
  - assert (Hrest : ~ In DoDismiss actions) by (intro H; apply Hno; right; exact H).
    destruct a; cbn [Notions.alertAfter existsb]; try (rewrite IH by exact Hrest).
    + reflexivity.
    + reflexivity.
    + destruct (isHighDistress (in_mood entry)), b; reflexivity.
    + exfalso. apply Hno. left. reflexivity.
    + reflexivity.
    + reflexivity.
Qed.

Lemma alertAfter_app (pre post : list Action) (b : bool) :
  Notions.alertAfter b (pre ++ post) = Notions.alertAfter (Notions.alertAfter b pre) post.
Proof.
  revert b. induction pre as [|a pre IH]; intro b; [reflexivity|].
  destruct a; cbn [app Notions.alertAfter]; apply IH.
Qed.

End MoreSession.

(** X14.  After a run that starts with the alert down, the alert is up
    exactly when some [addMoodEntry] of a distressing mood is followed by
    no dismissal; navigation, sign-up and the chat never touch it. *)
Theorem alert_is_up_iff_undismissed_distress :
  forall (toISOString : Z -> string) (st : App.AppState) (actions : list App.Action),
    App.highDistressAlert st = false ->
    (App.highDistressAlert (App.run toISOString st actions) = true
     <-> exists before entry idNow dateNow after,
           actions = before ++ App.DoAddMoodEntry entry idNow dateNow :: after
           /\ App.isHighDistress (in_mood entry) = true
           /\ ~ In App.DoDismiss after).
Proof.
  intros toISOString st actions Hdown.
  rewrite highDistressAlert_alertAfter, Hdown. split.
  - induction actions as [|a actions IH] using rev_ind; [discriminate|].
    rewrite alertAfter_app. intro H.
    destruct a; cbn [Notions.alertAfter] in H;
      try (destruct (IH H) as (before & entry & idNow & dateNow & after & -> & Hd & Hno);
           eexists before, entry, idNow, dateNow, (after ++ [_]);
           split; [rewrite <- app_assoc; reflexivity|];
           split; [exact Hd|];
           intro Hin; apply in_app_or in Hin; destruct Hin as [Hin|[Hin|[]]];
           [apply Hno; exact Hin | discriminate Hin]).
    + destruct (App.isHighDistress (in_mood entry)) eqn:Hd.
      * exists actions, entry, idNow, dateNow, []. repeat split; [exact Hd | intros []].
      * cbn [orb] in H.
        destruct (IH H) as (before & entry' & idNow' & dateNow' & after & -> & Hd' & Hno).
        exists before, entry', idNow', dateNow',
               (after ++ [App.DoAddMoodEntry entry idNow dateNow]).
        split; [rewrite <- app_assoc; reflexivity|]. split; [exact Hd'|].
        intro Hin. apply in_app_or in Hin. destruct Hin as [Hin|[Hin|[]]];
          [apply Hno; exact Hin | discriminate Hin].
    + discriminate H.
  - intros (before & entry & idNow & dateNow & after & -> & Hd & Hno).
    rewrite alertAfter_app. cbn [Notions.alertAfter]. rewrite Hd. cbn [orb].
    rewrite alertAfter_no_dismiss by exact Hno. reflexivity.
Qed.

Lemma alert_is_up_iff_undismissed_distress_witness :
  App.highDistressAlert
    (App.run isoStub App.initialState
       ([App.DoDismiss] ++ App.DoAddMoodEntry sadInput 1000 1000 :: [App.DoNavigate Home]))
  = true.
Proof.
  refine (proj2 (alert_is_up_iff_undismissed_distress isoStub App.initialState _ eq_refl) _).
  exists [App.DoDismiss], sadInput, 1000%Z, 1000%Z, [App.DoNavigate Home].
  split; [reflexivity|]. split; [reflexivity|].
  intros [H|[]]; discriminate H.
Defined.

(** ** The chat *)



(** X16.  [initializeChat] creates the session and the greeting once:
    without a session it leaves a conversation that consists of the
    greeting; with a session it changes nothing, so that coming back to
    the chat screen neither replaces the session nor clears the
    conversation. *)
Theorem initializeChat_once :
  forall (toISOString : Z -> string) (st : App.AppState),
    let st' := App.step toISOString st App.DoInitializeChat in
    App.chatSessionRef st' <> None
    /\ App.step toISOString st' App.DoInitializeChat = st'
    /\ (App.chatSessionRef st = None ->
        App.chatSessionRef st' = Some App.startChatSession
        /\ App.chatHistory st'
           = [mkChatMessage "init-1"
                "Hello! I'm your MindWell assistant. How can I support you right now?"
                ai_sender])
    /\ (App.chatSessionRef st <> None -> st' = st).
Proof.
  intros toISOString st st'. subst st'.
  unfold App.step. cbn [App.calls]. unfold App.initializeChat.
  destruct (App.chatSessionRef st) as [chat|] eqn:Href.
  - cbn [App.applyAll fold_left]. rewrite Href. cbn [App.applyAll fold_left].
    split; [discriminate|]. split; [reflexivity|].
    split; [discriminate | reflexivity].
  - unfold App.applyAll. cbn [fold_left App.apply App.chatSessionRef App.chatHistory].
    split; [discriminate|]. split; [reflexivity|].
    split; [intros _; split; reflexivity|].
    intro H. exfalso. apply H. reflexivity.
Qed.

Lemma initializeChat_once_witness :
  App.chatSessionRef (App.step isoStub App.initialState App.DoInitializeChat)
  = Some App.startChatSession.
Proof.
  exact (proj1 (proj1 (proj2 (proj2 (initializeChat_once isoStub App.initialState))) eq_refl)).
Defined.

Section Conversation.

Import App Notions.

Variable toISOString : Z -> string.




End Conversation.



(** ** Trimming *)






(** ** Sign-up and the entry just logged *)



(** X19.  The entry just logged is the one the home screen summarizes
    and lists first, and it is the one the recommendations are asked for:
    the next [getRecommendations] sends the request for its mood and, when
    that call fails, returns the fallback bundle of its mood. *)
Theorem logged_entry_is_the_latest :
  forall (toISOString : Z -> string) (st : App.AppState) (entry : MoodEntryInput)
         (idNow dateNow : Z) (model : Request -> Outcome),
    let history := App.moodHistory
                     (App.step toISOString st (App.DoAddMoodEntry entry idNow dateNow)) in
    let logged := App.newEntry toISOString entry idNow dateNow in
    mood logged = in_mood entry /\ date logged = dateNow
    /\ Screens.homeLatest history = Some logged
    /\ hd_error (Screens.recentEntries history) = Some logged
    /\ requests_of (getRecommendations history) model
       = [recommendationsRequest (in_mood entry)]
    /\ (isParsed (model (recommendationsRequest (in_mood entry))) = false ->
        result_of (getRecommendations history) model
        = recommendationsFallback (in_mood entry)).
Proof.
  intros toISOString st entry idNow dateNow model history logged. subst history logged.
  rewrite moodHistory_step. cbn [App.added].
  set (e := App.newEntry toISOString entry idNow dateNow).
  assert (Hlatest : Screens.homeLatest (App.moodHistory st ++ [e]) = Some e)
    by (apply latestEntry_last).
  split; [reflexivity|]. split; [reflexivity|]. split; [exact Hlatest|]. split.
  - unfold Screens.recentEntries, Screens.sliceLast.
    rewrite length_app. cbn [List.length].
    rewrite skipn_app.
    replace (List.length (App.moodHistory st) + 1 - 5 - List.length (App.moodHistory st))%nat
      with 0%nat by lia.
    cbn [skipn]. rewrite rev_app_distr. reflexivity.
  - unfold requests_of, result_of. rewrite getRecommendations_nonempty. cbn [fst snd].
    split; [reflexivity|].
    change (mood e) with (in_mood entry).
    destruct (model (recommendationsRequest (in_mood entry))); try reflexivity; discriminate.
Qed.

Lemma logged_entry_is_the_latest_witness :
  result_of
    (getRecommendations
       (App.moodHistory
          (App.step isoStub App.initialState (App.DoAddMoodEntry sadInput 1000 1000))))
    (fun _ => Rejected)
  = recommendationsFallback Sad.
Proof.
  exact (proj2 (proj2 (proj2 (proj2 (proj2
           (logged_entry_is_the_latest isoStub App.initialState sadInput 1000 1000
              (fun _ => Rejected)))))) eq_refl).
Defined.

(** ** The logging screens *)


Lemma entryArgument_imageFallback (source : Source) :
  Screens.entryArgument imageFallback source
  = Screens.Typed (Notions.neutralInput source "Could not determine mood from image.").
Proof. destruct source; reflexivity. Qed.









(** ** The scan screen *)







Lemma scan_effects (isLoading : bool) (uploadedImage : option string)
      (camera : Screens.Camera) (model : Request -> Outcome) :
  let effects := result_of (Screens.handleCaptureAndAnalyze isLoading uploadedImage camera)
                           model in
  (effects = []
   /\ requests_of (Screens.handleCaptureAndAnalyze isLoading uploadedImage camera) model = [])
  \/ (exists message,
         effects = Screens.scanStart ++ [Screens.setError (Some message);
                                         Screens.setIsLoading false]
         /\ requests_of (Screens.handleCaptureAndAnalyze isLoading uploadedImage camera) model
            = [])
  \/ (exists data,
         effects
         = Screens.scanStart
             ++ [Screens.setDetectedMood
                   (Some (Screens.mkDetected
                            (get (result_of (analyzeImageMood data) model) "mood")
                            (get (result_of (analyzeImageMood data) model) "emoji")));
                 Screens.callAddMoodEntry
                   (Screens.entryArgument (result_of (analyzeImageMood data) model) SrcFacial);
                 Screens.setIsLoading false]
         /\ requests_of (Screens.handleCaptureAndAnalyze isLoading uploadedImage camera) model
            = [imageRequest data]).
Proof.
  cbv zeta. unfold Screens.handleCaptureAndAnalyze.
  destruct isLoading; [left; split; reflexivity|].
  assert (Himage : forall url,
             (exists message,
                 result_of (Screens.scanImage url) model
                 = Screens.scanStart ++ [Screens.setError (Some message);
                                         Screens.setIsLoading false]
                 /\ requests_of (Screens.scanImage url) model = [])
             \/ (exists data,
                    result_of (Screens.scanImage url) model
                    = Screens.scanStart
                        ++ [Screens.setDetectedMood
                              (Some (Screens.mkDetected
                                       (get (result_of (analyzeImageMood data) model) "mood")
                                       (get (result_of (analyzeImageMood data) model) "emoji")));
                            Screens.callAddMoodEntry
                              (Screens.entryArgument
                                 (result_of (analyzeImageMood data) model) SrcFacial);
                            Screens.setIsLoading false]
                    /\ requests_of (Screens.scanImage url) model = [imageRequest data])).
  { intro url. unfold Screens.scanImage.
    destruct (nth_error (Screens.splitComma url) 1) as [[|c data]|].
    - left. eexists. split; reflexivity.
    - right. exists (String c data). unfold result_of, requests_of, bind.
      rewrite analyzeImageMood_unfold. cbn [fst snd ret app]. split; reflexivity.
    - left. eexists. split; reflexivity. }
  assert (Hcamera :
            (exists message,
                result_of (Screens.scanCamera camera) model
                = Screens.scanStart ++ [Screens.setError (Some message);
                                        Screens.setIsLoading false]
                /\ requests_of (Screens.scanCamera camera) model = [])
            \/ (exists data,
                   result_of (Screens.scanCamera camera) model
                   = Screens.scanStart
                       ++ [Screens.setDetectedMood
                             (Some (Screens.mkDetected
                                      (get (result_of (analyzeImageMood data) model) "mood")
                                      (get (result_of (analyzeImageMood data) model) "emoji")));
                           Screens.callAddMoodEntry
                             (Screens.entryArgument
                                (result_of (analyzeImageMood data) model) SrcFacial);
                           Screens.setIsLoading false]
                   /\ requests_of (Screens.scanCamera camera) model = [imageRequest data])).
  { destruct camera; try (left; eexists; split; reflexivity). apply Himage. }
  right. destruct uploadedImage as [[|c image]|]; [exact Hcamera | apply Himage | exact Hcamera].
Qed.

(** X24.  However the scan ends, the screen is not left busy and the
    page is not changed: the handler either does nothing, or begins by
    showing itself busy and ends by showing itself idle, and it never
    navigates.  It sends at most one request, and it logs an entry exactly
    when it sends one; when that analysis fails the screen shows and logs
    [Neutral] with the neutral face and the notes "Could not determine
    mood from image.". *)
Theorem scan_never_stays_busy :
  forall (isLoading : bool) (uploadedImage : option string)
         (camera : Screens.Camera) (model : Request -> Outcome),
    let effects := result_of (Screens.handleCaptureAndAnalyze isLoading uploadedImage camera)
                             model in
    let requests := requests_of (Screens.handleCaptureAndAnalyze isLoading uploadedImage camera)
                                model in
    (effects = []
     \/ (hd_error effects = Some (Screens.setIsLoading true)
         /\ hd_error (rev effects) = Some (Screens.setIsLoading false)))
    /\ existsb Notions.isNavigate effects = false
    /\ List.length (filter Notions.isAddMoodEntry effects) = List.length requests
    /\ (List.length requests <= 1)%nat
    /\ (forall r, In r requests -> isParsed (model r) = false ->
          In (Screens.setDetectedMood
                (Some (Screens.mkDetected (Some (JStr "Neutral")) (Some (JStr "😐")))))
             effects
          /\ In (Screens.callAddMoodEntry
                   (Screens.Typed
                      (Notions.neutralInput SrcFacial "Could not determine mood from image.")))
                effects).
Proof.
  intros isLoading uploadedImage camera model effects requests. subst effects requests.
  destruct (scan_effects isLoading uploadedImage camera model)
    as [(-> & ->) | [(message & -> & ->) | (data & -> & ->)]].
  - repeat split; auto; contradiction.
  - repeat split; auto; contradiction.
  - split; [right; split; reflexivity|].
    split; [reflexivity|]. split; [reflexivity|]. split; [apply le_n|].
    intros r [<- | []] Hfail.
    assert (Hresult : result_of (analyzeImageMood data) model = imageFallback).
    { unfold result_of. rewrite analyzeImageMood_unfold. cbn [fst].
      unfold imageResult. destruct (model (imageRequest data)); try reflexivity.
      discriminate Hfail. }
    rewrite Hresult, entryArgument_imageFallback.
    split; [right; right; right; left; reflexivity
           | right; right; right; right; left; reflexivity].
Qed.

Lemma scan_never_stays_busy_witness :
  In (Screens.callAddMoodEntry
        (Screens.Typed (Notions.neutralInput SrcFacial "Could not determine mood from image.")))
     (result_of (Screens.handleCaptureAndAnalyze false None
                   (Screens.Frame "data:image/jpeg;base64,/9j/4AAQ"))
                (fun _ => Rejected)).
Proof.
  refine (proj2 (proj2 (proj2 (proj2 (proj2
            (scan_never_stays_busy false None
               (Screens.Frame "data:image/jpeg;base64,/9j/4AAQ") (fun _ => Rejected)))))
            (imageRequest "/9j/4AAQ") _ eq_refl)).
  left. reflexivity.
Defined.

(** ** The chat screen *)








(** ** The identifiers of the entries *)

Lemma ids_of_entriesAdded (toISOString : Z -> string) (actions : list App.Action) :
  map id (App.entriesAdded toISOString actions)
  = map toISOString (Notions.idReadings actions).
Proof.
  unfold App.entriesAdded, Notions.idReadings.
  induction actions as [|a actions IH]; [reflexivity|].
  cbn [flat_map]. rewrite !map_app, IH. destruct a; reflexivity.
Qed.

Lemma NoDup_map_on {A B : Type} (f : A -> B) (l : list A) :
  (forall a b, In a l -> In b l -> f a = f b -> a = b) ->
  (NoDup (map f l) <-> NoDup l).
Proof.
  induction l as [|x l IH]; intro Hinj; cbn [map].
  - split; intros _; constructor.
  - assert (Hl : forall a b, In a l -> In b l -> f a = f b -> a = b).
    { intros a b Ha Hb. apply Hinj; right; assumption. }
    split; intro H; inversion H as [|? ? Hx Hnd]; subst; constructor.
    + intro Hin. apply Hx. apply in_map. exact Hin.
    + apply (IH Hl). exact Hnd.
    + intro Hin. apply in_map_iff in Hin. destruct Hin as (y & Hy & Hin).
      apply Hx. rewrite (Hinj y x (or_intror Hin) (or_introl eq_refl) Hy) in Hin. exact Hin.
    + apply (IH Hl). exact Hnd.
Qed.

(** X26.  The identifier of an entry is the text of the clock reading
    taken when it is logged, whatever the entry holds.  So, with texts
    that tell the readings of a run apart, the entries of the history have
    pairwise different identifiers exactly when no two of them were logged
    at the same reading of the clock. *)
Theorem entry_ids_follow_the_clock :
  forall (toISOString : Z -> string) (actions : list App.Action),
    (forall a b, In a (Notions.idReadings actions) -> In b (Notions.idReadings actions) ->
                 toISOString a = toISOString b -> a = b) ->
    map id (App.moodHistory (App.run toISOString App.initialState actions))
    = map toISOString (Notions.idReadings actions)
    /\ (NoDup (map id (App.moodHistory (App.run toISOString App.initialState actions)))
        <-> NoDup (Notions.idReadings actions)).
Proof.
  intros toISOString actions Hinj.
  rewrite moodHistory_run. cbn [App.moodHistory App.initialState app].
  rewrite ids_of_entriesAdded. split; [reflexivity|].
  apply NoDup_map_on. exact Hinj.
Qed.

Lemma entry_ids_follow_the_clock_witness :
  ~ NoDup (map id (App.moodHistory
                     (App.run isoStub App.initialState
                        [App.DoAddMoodEntry calmInput 7 7; App.DoNavigate Home;
                         App.DoAddMoodEntry sadInput 7 8]))).
Proof.
  intro H.
  apply (proj2 (entry_ids_follow_the_clock isoStub
                  [App.DoAddMoodEntry calmInput 7 7; App.DoNavigate Home;
                   App.DoAddMoodEntry sadInput 7 8]
                  ltac:(cbn; intros a b [<-|[<-|[]]] [<-|[<-|[]]] _; reflexivity))) in H.
  inversion H as [|? ? Hx _]. apply Hx. left. reflexivity.
Defined.
